(** * jiant [src/models.py]: model construction and forward dispatch

    A shallow embedding of the model builder ([build_model],
    [build_embeddings], [build_modules] and the head builders) and of
    [MultiTaskModel.forward] with its per-category forward passes.

    Conventions.
    - A Python exception is a value of [PyError]; fallible code returns
      [Res].  Code that constructs module objects runs in the monad [M],
      which threads the allocation counter that gives every constructed
      object its identity (Python's [is]).
    - A local variable that may be read before it is assigned is an
      [option]: [None] is "unbound", and reading it raises
      [UnboundLocalError].
    - [args] is the argparse namespace: the options this file reads are
      typed fields, any further attribute (the per-task overrides
      "<task>_<attr>") lives in [args_extras]; [args_getattr] and
      [args_hasattr] see both, as [getattr] and [hasattr] do.
    - What the file imports from [tasks], [modules], [allennlp], [torch],
      [scipy] and [sklearn] is not part of this file: constructors build
      records of their arguments, calls of imported modules and numeric
      routines are parameters of the development. *)

From Stdlib Require Import ZArith List String Ascii Bool Lia QArith_base.
From stdpp Require Import base option gmap strings list fin_maps.

Local Open Scope string_scope.
Local Open Scope Z_scope.

(** ** Python values, exceptions, and the two monads *)

Inductive PyError :=
| AssertionError (msg : string)
| ValueError (msg : string)
| NameError (var : string)
| UnboundLocalError (var : string)   (* a subclass of NameError *)
| ImportErrorE (module : string)
| NotImplementedError
| AttributeError (attr : string)
| KeyError (key : string)
| IndexError
| TypeError
| RuntimeError.

(** [isinstance(e, NameError)]. *)
Definition is_name_error (e : PyError) : bool :=
  match e with
  | NameError _ | UnboundLocalError _ => true
  | _ => false
  end.

Inductive Res (A : Type) :=
| Ok (a : A)
| Raise (e : PyError).
Arguments Ok {A} a.
Arguments Raise {A} e.

Definition res_bind {A B} (r : Res A) (k : A → Res B) : Res B :=
  match r with
  | Ok a => k a
  | Raise e => Raise e
  end.

(** Object-allocating code: the state is the next free object id. *)
Definition M (A : Type) : Type := nat → Res (A * nat).

Definition ret {A} (a : A) : M A := fun n => Ok (a, n).
Definition raise {A} (e : PyError) : M A := fun _ => Raise e.
Definition bind {A B} (m : M A) (k : A → M B) : M B :=
  fun n => match m n with
           | Ok (a, n') => k a n'
           | Raise e => Raise e
           end.
Definition lift {A} (r : Res A) : M A :=
  fun n => match r with Ok a => Ok (a, n) | Raise e => Raise e end.
(** The identity of a newly constructed object. *)
Definition fresh : M nat := fun n => Ok (n, S n).

Declare Scope py_scope.
Delimit Scope py_scope with py.
Notation "'let*' x ':=' c1 'in' c2" := (bind c1 (fun x => c2))
  (at level 10, x pattern, c1 at level 200, c2 at level 200) : py_scope.
Notation "'let?' x ':=' c1 'in' c2" := (res_bind c1 (fun x => c2))
  (at level 10, x pattern, c1 at level 200, c2 at level 200) : py_scope.
Local Open Scope py_scope.

Inductive PyVal :=
| VNone
| VBool (b : bool)
| VInt (z : Z)
| VFloat (q : Q)
| VStr (s : string).

(** Truth value of an object, as tested by [if] and [not]. *)
Definition truthyZ (z : Z) : bool := negb (z =? 0).

Definition truthy (v : PyVal) : bool :=
  match v with
  | VNone => false
  | VBool b => b
  | VInt z => truthyZ z
  | VFloat q => negb (Qnum q =? 0)
  | VStr s => negb (String.eqb s "")
  end.

Fixpoint str_repeat (n : nat) (s : string) : string :=
  match n with
  | O => ""
  | S n' => s ++ str_repeat n' s
  end.

(** [k * v] for an [int] literal [k]. *)
Definition py_int_mul (k : Z) (v : PyVal) : Res PyVal :=
  match v with
  | VNone => Raise TypeError
  | VBool b => Ok (VInt (k * Z.b2z b))
  | VInt z => Ok (VInt (k * z))
  | VFloat q => Ok (VFloat (Qmult (inject_Z k) q))
  | VStr s => Ok (VStr (str_repeat (Z.to_nat k) s))
  end.

(** ** Configuration, vocabulary, tasks *)

Record Args := {
  args_d_hid : Z;
  args_d_tproj : Z;
  args_d_ff : Z;
  args_n_layers_enc : Z;
  args_n_heads : Z;
  args_bidirectional : Z;
  args_sent_enc : string;
  args_n_layers_highway : Z;
  args_dropout : Q;
  args_skip_embs : Z;
  args_cuda : Z;
  args_sent_combine_method : string;
  args_d_char : Z;
  args_word_embs : string;
  args_word_embs_file : string;
  args_d_word : Z;
  args_cove : Z;
  args_path_to_cove : string;
  args_char_embs : Z;
  args_char_filter_sizes : string;
  args_n_char_filters : Z;
  args_dropout_embs : Q;
  args_elmo : Z;
  args_elmo_chars_only : Z;
  args_classifier : string;
  args_classifier_hid_dim : Z;
  args_d_proj : Z;
  args_shared_pair_attn : Z;
  args_pair_attn : Z;
  args_classifier_dropout : Q;
  args_max_word_v_size : Z;
  args_d_hid_dec : Z;
  args_n_layers_dec : Z;
  args_extras : gmap string PyVal
}.

(** The declared options by name, for [getattr]/[hasattr] with a name
    computed at run time. *)
Definition args_declared (a : Args) : list (string * PyVal) :=
  [ ("d_hid", VInt (args_d_hid a)); ("d_tproj", VInt (args_d_tproj a));
    ("d_ff", VInt (args_d_ff a)); ("n_layers_enc", VInt (args_n_layers_enc a));
    ("n_heads", VInt (args_n_heads a));
    ("bidirectional", VInt (args_bidirectional a));
    ("sent_enc", VStr (args_sent_enc a));
    ("n_layers_highway", VInt (args_n_layers_highway a));
    ("dropout", VFloat (args_dropout a)); ("skip_embs", VInt (args_skip_embs a));
    ("cuda", VInt (args_cuda a));
    ("sent_combine_method", VStr (args_sent_combine_method a));
    ("d_char", VInt (args_d_char a)); ("word_embs", VStr (args_word_embs a));
    ("word_embs_file", VStr (args_word_embs_file a));
    ("d_word", VInt (args_d_word a)); ("cove", VInt (args_cove a));
    ("path_to_cove", VStr (args_path_to_cove a));
    ("char_embs", VInt (args_char_embs a));
    ("char_filter_sizes", VStr (args_char_filter_sizes a));
    ("n_char_filters", VInt (args_n_char_filters a));
    ("dropout_embs", VFloat (args_dropout_embs a)); ("elmo", VInt (args_elmo a));
    ("elmo_chars_only", VInt (args_elmo_chars_only a));
    ("classifier", VStr (args_classifier a));
    ("classifier_hid_dim", VInt (args_classifier_hid_dim a));
    ("d_proj", VInt (args_d_proj a));
    ("shared_pair_attn", VInt (args_shared_pair_attn a));
    ("pair_attn", VInt (args_pair_attn a));
    ("classifier_dropout", VFloat (args_classifier_dropout a));
    ("max_word_v_size", VInt (args_max_word_v_size a));
    ("d_hid_dec", VInt (args_d_hid_dec a));
    ("n_layers_dec", VInt (args_n_layers_dec a)) ].

Fixpoint assoc {A} (k : string) (l : list (string * A)) : option A :=
  match l with
  | [] => None
  | (k', v) :: l' => if String.eqb k k' then Some v else assoc k l'
  end.

Definition args_getattr (a : Args) (k : string) : option PyVal :=
  match assoc k (args_declared a) with
  | Some v => Some v
  | None => args_extras a !! k
  end.

Definition args_hasattr (a : Args) (k : string) : bool :=
  bool_decide (is_Some (args_getattr a k)).

(** allennlp's [Vocabulary], by the three members this file uses. *)
Record Vocabulary := {
  get_vocab_size : string → Z;
  get_token_index : string → Z;
  _padding_token : string
}.

(** The size of a pretrained embedding matrix: [pretrained_embs.size()]. *)
Record PretrainedEmbs := { pe_size : list Z }.

(** What the interpreter and the file system decide: whether
    [from cove import MTLSTM] succeeds once [args.path_to_cove] is on the
    path, and the builtin [int] on a string. *)
Record Env := {
  cove_importable : string → bool;
  py_int : string → option Z
}.

(** ** Embedding modules (allennlp, [modules], [cove]) *)

Definition ELMO_OPT_PATH : string :=
  "https://s3-us-west-2.amazonaws.com/allennlp/models/elmo/2x4096_512_2048cnn_2xhighway/elmo_2x4096_512_2048cnn_2xhighway_options.json".
Definition ELMO_WEIGHTS_PATH : string :=
  "https://s3-us-west-2.amazonaws.com/allennlp/models/elmo/2x4096_512_2048cnn_2xhighway/elmo_2x4096_512_2048cnn_2xhighway_weights.hdf5".

Record Embedding := {
  emb_id : nat;
  emb_num_embeddings : Z;
  emb_embedding_dim : Z;
  emb_weight : option PretrainedEmbs;
  emb_trainable : bool;
  emb_padding_index : option Z
}.

Record CnnEncoder := {
  cnn_id : nat;
  cnn_embedding_dim : Z;
  cnn_num_filters : Z;
  cnn_ngram_filter_sizes : list Z;
  cnn_output_dim : Z
}.

Record TokenCharactersEncoder := {
  tce_id : nat;
  tce_embedding : Embedding;
  tce_encoder : CnnEncoder;
  tce_dropout : Q
}.

Record ElmoCharacterEncoder := {
  ece_id : nat;
  ece_options_file : string;
  ece_weight_file : string;
  ece_requires_grad : bool
}.

Record ElmoTokenEmbedder := {
  ete_id : nat;
  ete_options_file : string;
  ete_weight_file : string;
  ete_dropout : Q
}.

Inductive TokenEmbedder :=
| TEWords (e : Embedding)
| TEChars (e : TokenCharactersEncoder)
| TEElmoChars (e : ElmoCharacterEncoder)
| TEElmo (e : ElmoTokenEmbedder).

Record BasicTextFieldEmbedder := {
  tfe_id : nat;
  tfe_token_embedders : gmap string TokenEmbedder
}.

(** [cove.MTLSTM]; [vectors] is the weight of the word embedding it is
    built over. *)
Record MTLSTM := {
  cove_id : nat;
  cove_n_vocab : Z;
  cove_vectors : Embedding
}.

(** [s.split(sep)] for a one-character separator. *)
Fixpoint split_on (sep : ascii) (s : string) : list string :=
  match s with
  | EmptyString => [""]
  | String c s' =>
      if Ascii.eqb c sep then "" :: split_on sep s'
      else match split_on sep s' with
           | [] => [String c ""]
           | w :: ws => String c w :: ws
           end
  end.

(** [[int(i) for i in l]]: the first string that is no integer raises. *)
Fixpoint ints_of (env : Env) (l : list string) : Res (list Z) :=
  match l with
  | [] => Ok []
  | s :: l' =>
      match py_int env s with
      | None => Raise (ValueError "invalid literal for int()")
      | Some z => let? zs := ints_of env l' in Ok (z :: zs)
      end
  end.

(** [l[-1]] *)
Definition last_item (l : list Z) : Res Z :=
  match rev l with
  | [] => Raise IndexError
  | z :: _ => Ok z
  end.

(** Reading a local variable that may not have been assigned. *)
Definition read_local {A} (name : string) (v : option A) : Res A :=
  match v with
  | Some a => Ok a
  | None => Raise (UnboundLocalError name)
  end.

(** ** [build_embeddings] (lines 100-173) *)

Definition build_embeddings (env : Env) (args : Args) (vocab : Vocabulary)
    (pretrained_embs : option PretrainedEmbs)
  : M (Z * BasicTextFieldEmbedder * option MTLSTM) :=
  let d_emb := 0 in
  let d_char := args_d_char args in
  let token_embedder : gmap string TokenEmbedder := ∅ in
  (* Word embeddings *)
  let* (embeddings, token_embedder, d_emb) :=
    if negb (String.eqb (args_word_embs args) "none") then
      let* (word_embs, d_word) :=
        match pretrained_embs with
        | Some pre =>
            if String.eqb (args_word_embs args) "glove"
               || String.eqb (args_word_embs args) "fastText"
            then let* d_word := lift (last_item (pe_size pre)) in
                 ret (Some pre, d_word)
            else ret (None, args_d_word args)
        | None => ret (None, args_d_word args)
        end in
      let* oid := fresh in
      let embeddings :=
        {| emb_id := oid;
           emb_num_embeddings := get_vocab_size vocab "tokens";
           emb_embedding_dim := d_word;
           emb_weight := word_embs;
           emb_trainable := false;
           emb_padding_index := Some (get_token_index vocab "@@PADDING@@") |} in
      ret (Some embeddings, <["words" := TEWords embeddings]> token_embedder,
           d_emb + d_word)
    else ret (None, token_embedder, d_emb) in
  (* Handle cove *)
  let* (cove_emb, d_emb) :=
    if truthyZ (args_cove args) then
      (* try: *)
      if cove_importable env (args_path_to_cove args) then
        let n_vocab := get_vocab_size vocab "tokens" in
        let* vectors := lift (read_local "embeddings" embeddings) in
        let* oid := fresh in
        let cove_emb :=
          {| cove_id := oid; cove_n_vocab := n_vocab; cove_vectors := vectors |} in
        ret (Some (Some cove_emb), d_emb + 600)
      else
        (* except ImportError: only logs; [cove_emb] stays unassigned *)
        ret (None, d_emb)
    else ret (Some None, d_emb) in
  (* Character embeddings *)
  let* (token_embedder, d_emb) :=
    if truthyZ (args_char_embs args) then
      let* oid := fresh in
      let char_embeddings :=
        {| emb_id := oid;
           emb_num_embeddings := get_vocab_size vocab "chars";
           emb_embedding_dim := d_char;
           emb_weight := None;
           emb_trainable := true;
           emb_padding_index := None |} in
      let* filter_sizes :=
        lift (ints_of env (split_on "," (args_char_filter_sizes args))) in
      let* oid := fresh in
      let char_encoder :=
        {| cnn_id := oid; cnn_embedding_dim := d_char;
           cnn_num_filters := args_n_char_filters args;
           cnn_ngram_filter_sizes := filter_sizes;
           cnn_output_dim := d_char |} in
      let* oid := fresh in
      let char_embedder :=
        {| tce_id := oid; tce_embedding := char_embeddings;
           tce_encoder := char_encoder;
           tce_dropout := args_dropout_embs args |} in
      ret (<["chars" := TEChars char_embedder]> token_embedder, d_emb + d_char)
    else ret (token_embedder, d_emb) in
  (* Handle elmo *)
  let* (token_embedder, d_emb) :=
    if truthyZ (args_elmo args) then
      let* (elmo_embedder, d_emb) :=
        if truthyZ (args_elmo_chars_only args) then
          let* oid := fresh in
          ret (TEElmoChars {| ece_id := oid; ece_options_file := ELMO_OPT_PATH;
                              ece_weight_file := ELMO_WEIGHTS_PATH;
                              ece_requires_grad := false |},
               d_emb + 512)
        else
          let* oid := fresh in
          ret (TEElmo {| ete_id := oid; ete_options_file := ELMO_OPT_PATH;
                         ete_weight_file := ELMO_WEIGHTS_PATH;
                         ete_dropout := args_dropout args |},
               d_emb + 1024) in
      ret (<["elmo" := elmo_embedder]> token_embedder, d_emb)
    else ret (token_embedder, d_emb) in
  let* oid := fresh in
  let embedder := {| tfe_id := oid; tfe_token_embedders := token_embedder |} in
  if negb (truthyZ d_emb)
  then raise (AssertionError "You turned off all the embeddings, ya goof!")
  else
    let* cove_emb := lift (read_local "cove_emb" cove_emb) in
    ret (d_emb, embedder, cove_emb).

(** *** Vocabulary for statements about [build_embeddings] *)

(** The three embedding sources of the configuration. *)
Definition word_on (args : Args) : bool :=
  negb (String.eqb (args_word_embs args) "none").
Definition char_on (args : Args) : bool := truthyZ (args_char_embs args).
Definition elmo_on (args : Args) : bool := truthyZ (args_elmo args).
Definition cove_on (args : Args) : bool := truthyZ (args_cove args).

Definition some_source_on (args : Args) : bool :=
  word_on args || char_on args || elmo_on args.

(** The width of the word embedding: the last dimension of the pretrained
    matrix when GloVe or fastText vectors are supplied, [args.d_word]
    otherwise. *)
Definition word_width (args : Args) (pretrained_embs : option PretrainedEmbs)
  : Res Z :=
  match pretrained_embs with
  | Some pre =>
      if String.eqb (args_word_embs args) "glove"
         || String.eqb (args_word_embs args) "fastText"
      then last_item (pe_size pre)
      else Ok (args_d_word args)
  | None => Ok (args_d_word args)
  end.

Definition elmo_width (args : Args) : Z :=
  if truthyZ (args_elmo_chars_only args) then 512 else 1024.

Definition assert_msg : string := "You turned off all the embeddings, ya goof!".

(** The sum of the widths of the enabled sources, [dw] being the width of
    the word embedding; CoVe adds 600. *)
Definition total_width (args : Args) (dw : Z) : Z :=
  (if word_on args then dw else 0)
  + (if cove_on args then 600 else 0)
  + (if char_on args then args_d_char args else 0)
  + (if elmo_on args then elmo_width args else 0).

(** CoVe does not stop the construction: it is off, or its module can be
    imported and the word embedding it is built over exists. *)
Definition cove_constructible (env : Env) (args : Args) : bool :=
  negb (cove_on args)
  || (word_on args && cove_importable env (args_path_to_cove args)).

(** ** Tasks ([tasks]) *)

(** The task classes this file imports and tests with [isinstance]. *)
Inductive TaskClass :=
| STSBTask | CoLATask | SSTTask
| PairClassificationTask | SingleClassificationTask
| PairRegressionTask | RankingTask
| SequenceGenerationTask | LanguageModelingTask
| PairOrdinalRegressionTask | JOCITask.

#[global] Instance TaskClass_eq_dec : EqDecision TaskClass.
Proof. solve_decision. Defined.

(** A scoring callback is an object of its own; its calls are recorded by
    the forward pass. *)
Record Scorer := { scorer_id : nat }.

(** A task object.  [task_classes] lists the imported classes the object is
    an instance of (its own class and the bases of that class);
    [task_n_classes] is [None] when the object has no attribute
    [n_classes]; a scorer is [None] when the attribute holds [None]. *)
Record Task := {
  task_name : string;
  task_classes : list TaskClass;
  task_n_classes : option Z;
  task_scorer1 : option Scorer;
  task_scorer2 : option Scorer
}.

Definition isinstance (t : Task) (c : TaskClass) : bool :=
  bool_decide (c ∈ task_classes t).

(** ** Encoder and head modules ([allennlp], [modules], [torch.nn]) *)

Record LSTM := {
  lstm_id : nat;
  lstm_input_size : Z;
  lstm_hidden_size : Z;
  lstm_num_layers : Z;
  lstm_bidirectional : PyVal
}.

(** The common parameters of both self-attention encoders. *)
Record TfmParams := {
  tfm_input_dim : Z;
  tfm_hidden_dim : Z;
  tfm_projection_dim : Z;
  tfm_feedforward_hidden_dim : Z;
  tfm_num_layers : Z;
  tfm_num_attention_heads : Z
}.

Inductive Seq2Seq :=
| S2SLstm (m : LSTM)
| S2SMaskedSelfAttention (id : nat) (p : TfmParams)
| S2SSelfAttention (id : nat) (p : TfmParams).

(** [SentenceEncoder(vocab, embedder, n_layers_highway, phrase_layer,
    skip_embs=.., dropout=.., cove_layer=..)]; a keyword that is not passed
    is [None] here and takes the constructor's default. *)
Record SentenceEncoder := {
  se_id : nat;
  se_vocab : Vocabulary;
  se_embedder : BasicTextFieldEmbedder;
  se_n_layers_highway : Z;
  se_phrase_layer : Seq2Seq;
  se_skip_embs : option Z;
  se_dropout : option Q;
  se_cove_layer : option (option MTLSTM)
}.

Record BoWSentEncoder := {
  bow_id : nat;
  bow_vocab : Vocabulary;
  bow_embedder : BasicTextFieldEmbedder
}.

Record BiLMEncoder := {
  bilm_id : nat;
  bilm_vocab : Vocabulary;
  bilm_embedder : BasicTextFieldEmbedder;
  bilm_n_layers_highway : Z;
  bilm_fwd : Seq2Seq;
  bilm_bwd : Seq2Seq;
  bilm_dropout : Q;
  bilm_skip_embs : Z;
  bilm_cove_layer : option MTLSTM
}.

Inductive SentEncoderObj :=
| EncBoW (e : BoWSentEncoder)
| EncSentence (e : SentenceEncoder)
| EncBiLM (e : BiLMEncoder).

(** The [Params] that [get_task_specific_params] returns. *)
Record TaskParams := {
  p_cls_type : PyVal;
  p_d_hid : PyVal;
  p_d_proj : PyVal;
  p_shared_pair_attn : PyVal;
  p_attn : PyVal;
  p_dropout : PyVal
}.

Record Pooler := {
  pool_id : nat;
  pool_d_inp : Z;
  pool_d_proj : PyVal
}.

Record Classifier := {
  cls_id : nat;
  cls_d_inp : PyVal;
  cls_n_classes : Z;
  cls_params : TaskParams
}.

Record SingleClassifier := {
  sc_id : nat;
  sc_pooler : Pooler;
  sc_classifier : Classifier
}.

Record AttnPairEncoder := {
  ape_id : nat;
  ape_vocab : Vocabulary;
  ape_modeling_layer : LSTM;
  ape_dropout : PyVal
}.

(** [pc_attn] is [None] when the head was given [None] as pair attention. *)
Record PairClassifier := {
  pc_id : nat;
  pc_pooler : Pooler;
  pc_classifier : Classifier;
  pc_attn : option AttnPairEncoder
}.

Record Linear := {
  lin_id : nat;
  lin_in_features : Z;
  lin_out_features : Z
}.

(** ** The model container *)

(** What an attribute of the [MultiTaskModel] instance can hold. *)
Inductive Attr :=
| AEncoder (e : SentEncoderObj)
| AStr (s : string)
| AVocab (v : Vocabulary)
| ASingle (m : SingleClassifier)
| APair (m : PairClassifier)
| ALinear (m : Linear)
| ADecoder (m : SentenceEncoder)
| APairAttn (m : option AttnPairEncoder).

(** The instance attributes of the model, by name. *)
Abbreviation Model := (gmap string Attr).

Definition hasattr (model : Model) (name : string) : bool :=
  bool_decide (is_Some (model !! name)).

Definition getattr (model : Model) (name : string) : Res Attr :=
  match model !! name with
  | Some a => Ok a
  | None => Raise (AttributeError name)
  end.

Definition setattr (model : Model) (name : string) (a : Attr) : Model :=
  <[name := a]> model.

(** [MultiTaskModel.__init__] (lines 287-292) *)
Definition MultiTaskModel (args : Args) (sent_encoder : SentEncoderObj)
    (vocab : Vocabulary) : Model :=
  setattr (setattr (setattr ∅ "sent_encoder" (AEncoder sent_encoder))
             "combine_method" (AStr (args_sent_combine_method args)))
    "vocab" (AVocab vocab).

(** ** [get_task_specific_params] (lines 201-220) *)

Definition args_attr (args : Args) (name : string) : Res PyVal :=
  match args_getattr args name with
  | Some v => Ok v
  | None => Raise (AttributeError name)
  end.

(** The inner function [get_task_attr]; ["%s_%s" % (task, attr_name)] is
    [task ++ "_" ++ attr_name]. *)
Definition get_task_attr (args : Args) (task : string) (attr_name : string)
  : Res PyVal :=
  if args_hasattr args (task ++ "_" ++ attr_name)
  then args_attr args (task ++ "_" ++ attr_name)
  else args_attr args attr_name.

Definition get_task_specific_params (args : Args) (task : string)
  : Res TaskParams :=
  let? cls_type := get_task_attr args task "classifier" in
  let? d_hid := get_task_attr args task "classifier_hid_dim" in
  let? d_proj := get_task_attr args task "d_proj" in
  let shared_pair_attn := VInt (args_shared_pair_attn args) in
  let? (attn, dropout) :=
    if truthyZ (args_shared_pair_attn args) then
      Ok (VInt (args_pair_attn args), VFloat (args_classifier_dropout args))
    else
      let? attn := get_task_attr args task "pair_attn" in
      let? dropout := get_task_attr args task "classifier_dropout" in
      Ok (attn, dropout) in
  Ok {| p_cls_type := cls_type; p_d_hid := d_hid; p_d_proj := d_proj;
        p_shared_pair_attn := shared_pair_attn; p_attn := attn;
        p_dropout := dropout |}.

(** ** Head builders (lines 223-279) *)

(** [task.n_classes] *)
Definition task_attr_n_classes (task : Task) : Res Z :=
  match task_n_classes task with
  | Some n => Ok n
  | None => Raise (AttributeError "n_classes")
  end.

Definition build_single_sentence_module (task : Task) (d_inp : Z)
    (params : TaskParams) : M SingleClassifier :=
  let* oid := fresh in
  let pooler :=
    {| pool_id := oid; pool_d_inp := d_inp; pool_d_proj := p_d_proj params |} in
  let* n_classes := lift (task_attr_n_classes task) in
  let* oid := fresh in
  let classifier :=
    {| cls_id := oid; cls_d_inp := p_d_proj params; cls_n_classes := n_classes;
       cls_params := params |} in
  let* oid := fresh in
  ret {| sc_id := oid; sc_pooler := pooler; sc_classifier := classifier |}.

(** The inner function [build_pair_attn]; it reads [d_inp], [vocab] and
    [params] of the enclosing call.  [int(d_inp / 2)] rounds towards zero. *)
Definition build_pair_attn (d_inp : Z) (vocab : Vocabulary) (params : TaskParams)
    (d_in : Z) (use_attn : PyVal) : M (option AttnPairEncoder) :=
  if negb (truthy use_attn) then ret None
  else
    let d_inp_model := 2 * d_in in
    let d_hid_model := Z.quot d_inp 2 in
    let* oid := fresh in
    let modeling_layer :=
      {| lstm_id := oid; lstm_input_size := d_inp_model;
         lstm_hidden_size := d_hid_model; lstm_num_layers := 1;
         lstm_bidirectional := VBool true |} in
    let* oid := fresh in
    ret (Some {| ape_id := oid; ape_vocab := vocab;
                 ape_modeling_layer := modeling_layer;
                 ape_dropout := p_dropout params |}).

(** Returns the head and the model, whose attribute [pair_attn] the call
    may have set. *)
Definition build_pair_sentence_module (task : Task) (d_inp : Z) (model : Model)
    (vocab : Vocabulary) (params : TaskParams) : M (PairClassifier * Model) :=
  let d_proj := p_d_proj params in
  let* oid := fresh in
  let pooler := {| pool_id := oid; pool_d_inp := d_inp; pool_d_proj := d_proj |} in
  let* (pair_attn, model) :=
    if truthy (p_shared_pair_attn params) then
      if negb (hasattr model "pair_attn") then
        let* pair_attn := build_pair_attn d_inp vocab params d_inp (p_attn params) in
        ret (pair_attn, setattr model "pair_attn" (APairAttn pair_attn))
      else
        let* a := lift (getattr model "pair_attn") in
        match a with
        | APairAttn pair_attn => ret (pair_attn, model)
        | _ => raise TypeError
        end
    else
      let* pair_attn := build_pair_attn d_inp vocab params d_inp (p_attn params) in
      ret (pair_attn, model) in
  let n_classes := match task_n_classes task with Some n => n | None => 1 end in
  let* d_cls := lift (py_int_mul 4 d_proj) in
  let* oid := fresh in
  let classifier :=
    {| cls_id := oid; cls_d_inp := d_cls; cls_n_classes := n_classes;
       cls_params := params |} in
  let* oid := fresh in
  ret ({| pc_id := oid; pc_pooler := pooler; pc_classifier := classifier;
          pc_attn := pair_attn |}, model).

Definition build_lm (task : Task) (d_inp : Z) (args : Args) : M Linear :=
  let* oid := fresh in
  ret {| lin_id := oid; lin_in_features := d_inp;
         lin_out_features := args_max_word_v_size args |}.

(** [embedder.get_output_dim()]: the widths of the token embedders, summed. *)
Definition token_embedder_dim (e : TokenEmbedder) : Z :=
  match e with
  | TEWords e => emb_embedding_dim e
  | TEChars e => cnn_output_dim (tce_encoder e)
  | TEElmoChars _ => 512
  | TEElmo _ => 1024
  end.

Definition get_output_dim (embedder : BasicTextFieldEmbedder) : Z :=
  map_fold (fun _ e acc => token_embedder_dim e + acc) 0
    (tfe_token_embedders embedder).

Definition build_decoder (task : Task) (d_inp : Z) (vocab : Vocabulary)
    (embedder : BasicTextFieldEmbedder) (args : Args)
  : M (SentenceEncoder * Linear) :=
  let* oid := fresh in
  let rnn :=
    {| lstm_id := oid; lstm_input_size := get_output_dim embedder;
       lstm_hidden_size := args_d_hid_dec args;
       lstm_num_layers := args_n_layers_dec args;
       lstm_bidirectional := VBool false |} in
  let* oid := fresh in
  let decoder :=
    {| se_id := oid; se_vocab := vocab; se_embedder := embedder;
       se_n_layers_highway := 0; se_phrase_layer := S2SLstm rnn;
       se_skip_embs := None; se_dropout := None; se_cove_layer := None |} in
  let* oid := fresh in
  let hid2voc :=
    {| lin_id := oid; lin_in_features := args_d_hid_dec args;
       lin_out_features := args_max_word_v_size args |} in
  ret (decoder, hid2voc).

(** ** [build_modules] (lines 176-199) *)

Definition is_pair_task (task : Task) : bool :=
  isinstance task PairClassificationTask
  || isinstance task PairRegressionTask
  || isinstance task PairOrdinalRegressionTask.

(** The body of the loop, for one task. *)
Definition build_task_modules (task : Task) (model : Model) (d_sent : Z)
    (vocab : Vocabulary) (embedder : BasicTextFieldEmbedder) (args : Args)
  : M Model :=
  let* task_params := lift (get_task_specific_params args (task_name task)) in
  if isinstance task SingleClassificationTask then
    let* module := build_single_sentence_module task d_sent task_params in
    ret (setattr model (task_name task ++ "_mdl") (ASingle module))
  else if is_pair_task task then
    let* (module, model) :=
      build_pair_sentence_module task d_sent model vocab task_params in
    ret (setattr model (task_name task ++ "_mdl") (APair module))
  else if isinstance task LanguageModelingTask then
    let* hid2voc := build_lm task d_sent args in
    ret (setattr model (task_name task ++ "_hid2voc") (ALinear hid2voc))
  else if isinstance task SequenceGenerationTask then
    let* (decoder, hid2voc) := build_decoder task d_sent vocab embedder args in
    let model := setattr model (task_name task ++ "_decoder") (ADecoder decoder) in
    ret (setattr model (task_name task ++ "_hid2voc") (ALinear hid2voc))
  else if isinstance task RankingTask then
    ret model
  else
    raise (ValueError ("Module not found for " ++ task_name task)).

Fixpoint build_modules (tasks : list Task) (model : Model) (d_sent : Z)
    (vocab : Vocabulary) (embedder : BasicTextFieldEmbedder) (args : Args)
  : M Model :=
  match tasks with
  | [] => ret model
  | task :: tasks' =>
      let* model := build_task_modules task model d_sent vocab embedder args in
      build_modules tasks' model d_sent vocab embedder args
  end.

(** ** [build_model] (lines 39-97) *)

Definition tfm_params (args : Args) (d_emb : Z) : TfmParams :=
  {| tfm_input_dim := d_emb; tfm_hidden_dim := args_d_hid args;
     tfm_projection_dim := args_d_tproj args;
     tfm_feedforward_hidden_dim := args_d_ff args;
     tfm_num_layers := args_n_layers_enc args;
     tfm_num_attention_heads := args_n_heads args |}.

(** [s2s_e.by_name('lstm').from_params(copy.deepcopy(rnn_params))] *)
Definition lstm_from_rnn_params (args : Args) (d_emb : Z) : M Seq2Seq :=
  let* oid := fresh in
  ret (S2SLstm {| lstm_id := oid; lstm_input_size := d_emb;
                  lstm_hidden_size := args_d_hid args;
                  lstm_num_layers := args_n_layers_enc args;
                  lstm_bidirectional := VInt (args_bidirectional args) |}).

Definition masked_tfm_from_params (args : Args) (d_emb : Z) : M Seq2Seq :=
  let* oid := fresh in ret (S2SMaskedSelfAttention oid (tfm_params args d_emb)).

Definition tfm_from_params (args : Args) (d_emb : Z) : M Seq2Seq :=
  let* oid := fresh in ret (S2SSelfAttention oid (tfm_params args d_emb)).

(** [sum([isinstance(task, LanguageModelingTask) for task in tasks])] *)
Definition count_lm_tasks (tasks : list Task) : Z :=
  fold_right (fun task acc => Z.b2z (isinstance task LanguageModelingTask) + acc)
    0 tasks.

(** Lines 44-89: the sentence encoder and its output width.  The result is
    the pair of the locals [sent_encoder] (unbound when no branch assigned
    it) and [d_sent] as they stand before line 92. *)
Definition build_model_encoder (args : Args) (vocab : Vocabulary)
    (tasks : list Task) (d_emb : Z) (embedder : BasicTextFieldEmbedder)
    (cove_emb : option MTLSTM) : M (option SentEncoderObj * Z) :=
  let d_sent := args_d_hid args in
  let sent_enc := args_sent_enc args in
  let mk_sentence_encoder (oid : nat) (phrase_layer : Seq2Seq) :=
    EncSentence
      {| se_id := oid; se_vocab := vocab; se_embedder := embedder;
         se_n_layers_highway := args_n_layers_highway args;
         se_phrase_layer := phrase_layer;
         se_skip_embs := Some (args_skip_embs args);
         se_dropout := Some (args_dropout args);
         se_cove_layer := Some cove_emb |} in
  let* (sent_encoder, d_sent) :=
    if truthyZ (count_lm_tasks tasks) then
      if truthyZ (args_bidirectional args) then
        let* (fwd, bwd) :=
          if String.eqb sent_enc "rnn" then
            let* fwd := lstm_from_rnn_params args d_emb in
            let* bwd := lstm_from_rnn_params args d_emb in
            ret (Some fwd, Some bwd)
          else if String.eqb sent_enc "transformer" then
            let* fwd := masked_tfm_from_params args d_emb in
            let* bwd := masked_tfm_from_params args d_emb in
            ret (Some fwd, Some bwd)
          else ret (None, None) in
        let* fwd := lift (read_local "fwd" fwd) in
        let* bwd := lift (read_local "bwd" bwd) in
        let* oid := fresh in
        ret (Some (EncBiLM
                     {| bilm_id := oid; bilm_vocab := vocab;
                        bilm_embedder := embedder;
                        bilm_n_layers_highway := args_n_layers_highway args;
                        bilm_fwd := fwd; bilm_bwd := bwd;
                        bilm_dropout := args_dropout args;
                        bilm_skip_embs := args_skip_embs args;
                        bilm_cove_layer := cove_emb |}),
             d_sent)
      else
        let* fwd :=
          if String.eqb sent_enc "rnn" then
            let* fwd := lstm_from_rnn_params args d_emb in ret (Some fwd)
          else if String.eqb sent_enc "transformer" then
            let* fwd := masked_tfm_from_params args d_emb in ret (Some fwd)
          else ret None in
        let* fwd := lift (read_local "fwd" fwd) in
        let* oid := fresh in
        ret (Some (mk_sentence_encoder oid fwd), d_sent)
    else if String.eqb sent_enc "bow" then
      let* oid := fresh in
      ret (Some (EncBoW {| bow_id := oid; bow_vocab := vocab;
                           bow_embedder := embedder |}),
           d_emb)
    else if String.eqb sent_enc "rnn" then
      let* sent_rnn := lstm_from_rnn_params args d_emb in
      let* oid := fresh in
      ret (Some (mk_sentence_encoder oid sent_rnn),
           (1 + args_bidirectional args) * args_d_hid args)
    else if String.eqb sent_enc "transformer" then
      let* transformer := tfm_from_params args d_emb in
      let* oid := fresh in
      ret (Some (mk_sentence_encoder oid transformer), d_sent)
    else ret (None, d_sent) in
  let d_sent := d_sent + args_skip_embs args * d_emb in
  ret (sent_encoder, d_sent).

Definition build_model (env : Env) (args : Args) (vocab : Vocabulary)
    (pretrained_embs : option PretrainedEmbs) (tasks : list Task) : M Model :=
  (* Build embeddings. *)
  let* (d_emb, embedder, cove_emb) :=
    build_embeddings env args vocab pretrained_embs in
  let* (sent_encoder, d_sent) :=
    build_model_encoder args vocab tasks d_emb embedder cove_emb in
  (* Build model and classifiers *)
  let* sent_encoder := lift (read_local "sent_encoder" sent_encoder) in
  let model := MultiTaskModel args sent_encoder vocab in
  let* model := build_modules tasks model d_sent vocab embedder args in
  (* [model.cuda()] returns the model itself *)
  ret model.

(** *** Vocabulary for statements about the builders *)

(** The width of the encoder output by encoder type, as the specification
    words it: bow gives [d_emb], rnn gives [(1 + bidirectional) * d_hid],
    transformer gives [d_hid]. *)
Definition spec_encoder_width (args : Args) (d_emb : Z) : option Z :=
  if String.eqb (args_sent_enc args) "bow" then Some d_emb
  else if String.eqb (args_sent_enc args) "rnn"
       then Some ((1 + args_bidirectional args) * args_d_hid args)
  else if String.eqb (args_sent_enc args) "transformer"
       then Some (args_d_hid args)
  else None.

(** The value the specification gives a per-task hyperparameter: the
    task-specific key "<task>_<attr>" when present, the global key
    otherwise. *)
Definition spec_task_attr (args : Args) (task attr : string) : option PyVal :=
  match args_getattr args (task ++ "_" ++ attr) with
  | Some v => Some v
  | None => args_getattr args attr
  end.

(** The category under which [build_modules] and [forward] treat a task:
    both test the classes in this order and take the first that applies. *)
Inductive Category :=
| CatSingle | CatPair | CatLM | CatSeqGen | CatRanking.

Definition category_of (task : Task) : option Category :=
  if isinstance task SingleClassificationTask then Some CatSingle
  else if is_pair_task task then Some CatPair
  else if isinstance task LanguageModelingTask then Some CatLM
  else if isinstance task SequenceGenerationTask then Some CatSeqGen
  else if isinstance task RankingTask then Some CatRanking
  else None.

(** The member names under which a task's head is attached. *)
Definition head_names (task : Task) : list string :=
  match category_of task with
  | Some CatSingle | Some CatPair => [task_name task ++ "_mdl"]
  | Some CatLM => [task_name task ++ "_hid2voc"]
  | Some CatSeqGen => [task_name task ++ "_decoder"; task_name task ++ "_hid2voc"]
  | Some CatRanking | None => []
  end.

Definition is_classifier_head (a : Attr) : bool :=
  match a with ASingle _ | APair _ => true | _ => false end.
Definition is_linear (a : Attr) : bool :=
  match a with ALinear _ => true | _ => false end.
Definition is_decoder (a : Attr) : bool :=
  match a with ADecoder _ => true | _ => false end.

(** The head of a task is attached to the model, with the kind of module
    its category calls for. *)
Definition head_attached (model : Model) (task : Task) : Prop :=
  match category_of task with
  | Some CatSingle | Some CatPair =>
      ∃ a, model !! (task_name task ++ "_mdl") = Some a
           ∧ is_classifier_head a = true
  | Some CatLM =>
      ∃ a, model !! (task_name task ++ "_hid2voc") = Some a ∧ is_linear a = true
  | Some CatSeqGen =>
      (∃ a, model !! (task_name task ++ "_decoder") = Some a
            ∧ is_decoder a = true)
      ∧ (∃ a, model !! (task_name task ++ "_hid2voc") = Some a
              ∧ is_linear a = true)
  | Some CatRanking => True
  | None => False
  end.


Fixpoint last_char (s : string) : option ascii :=
  match s with
  | EmptyString => None
  | String c EmptyString => Some c
  | String _ s' => last_char s'
  end.

(** What a call of [build_pair_sentence_module] that returns head [pc] does
    to the model: with sharing on, the model's [pair_attn] is set to the
    new attention object when it was missing and is left alone when
    present, and in both cases the head holds that very object; with
    sharing off the model is untouched. *)
Definition pair_attn_step (args : Args) (m m1 : Model) (pc : PairClassifier)
  : Prop :=
  if truthyZ (args_shared_pair_attn args) then
    (m !! "pair_attn" = None
     ∧ m1 = setattr m "pair_attn" (APairAttn (pc_attn pc)))
    ∨ (m !! "pair_attn" = Some (APairAttn (pc_attn pc)) ∧ m1 = m)
  else m1 = m.

(** A member [s ++ suffix] of the model holds a module of the given kind. *)
Definition slot_ok (suffix : string) (kind : Attr → bool) (m : Model)
    (s : string) : Prop :=
  ∃ a, m !! (s ++ suffix) = Some a ∧ kind a = true.


(** ** Tensors, batches and the imported numeric routines *)

Section Forward.

(** The floating-point numbers of the tensor library.  Nothing in this file
    computes with them: they are produced and consumed by the imported
    routines below. *)
Context {Scalar : Type}.

(** A tensor: its size and its entries in row-major order, integer
    ([LongTensor], [ByteTensor]) or floating point. *)
Inductive Tensor :=
| IntT (shape : list Z) (data : list Z)
| FloatT (shape : list Z) (data : list Scalar).

Definition size (t : Tensor) : list Z :=
  match t with IntT sh _ | FloatT sh _ => sh end.

Definition numel (t : Tensor) : Z :=
  match t with
  | IntT _ d => Z.of_nat (length d)
  | FloatT _ d => Z.of_nat (length d)
  end.

Definition reshape (t : Tensor) (sh : list Z) : Tensor :=
  match t with
  | IntT _ d => IntT sh d
  | FloatT _ d => FloatT sh d
  end.

(** A batch field is a tensor, or a text field: a dict of tensors by
    indexer name ("words", "chars"). *)
Inductive BatchValue :=
| BTensor (t : Tensor)
| BText (f : gmap string Tensor).

Abbreviation Batch := (gmap string BatchValue).

(** [batch[key]] *)
Definition batch_get (batch : Batch) (key : string) : Res BatchValue :=
  match batch !! key with
  | Some v => Ok v
  | None => Raise (KeyError key)
  end.

(** [field[key]] for a text field; a tensor takes no string index. *)
Definition field_get (v : BatchValue) (key : string) : Res Tensor :=
  match v with
  | BText f => match f !! key with
               | Some t => Ok t
               | None => Raise (KeyError key)
               end
  | BTensor _ => Raise IndexError
  end.

(** A tensor-valued batch field, as the receiver of a tensor method. *)
Definition as_tensor (v : BatchValue) : Res Tensor :=
  match v with
  | BTensor t => Ok t
  | BText _ => Raise (AttributeError "tensor method on a dict")
  end.

(** [a, b = t.size()] *)
Definition size2 (t : Tensor) : Res (Z * Z) :=
  match size t with
  | [a; b] => Ok (a, b)
  | _ => Raise (ValueError "not enough or too many values to unpack")
  end.

(** [t.squeeze(-1)]: a last dimension of size one is dropped. *)
Definition squeeze_last (t : Tensor) : Tensor :=
  match rev (size t) with
  | 1 :: sh' => reshape t (rev sh')
  | _ => t
  end.

(** [t.view(-1)] *)
Definition view_flat (t : Tensor) : Tensor := reshape t [numel t].

(** [t.view(n, -1)]: the second size is inferred, and must exist. *)
Definition view_rows (t : Tensor) (n : Z) : Res Tensor :=
  if (0 <? n) && (numel t mod n =? 0)
  then Ok (reshape t [n; numel t / n])
  else Raise RuntimeError.

(** [torch.cat([a, b], dim=0)] (also the default [dim]) for tensors of one
    or two dimensions. *)
Definition cat0 (a b : Tensor) : Res Tensor :=
  match a, b with
  | FloatT [n1] d1, FloatT [n2] d2 => Ok (FloatT [n1 + n2] (d1 ++ d2))
  | IntT [n1] d1, IntT [n2] d2 => Ok (IntT [n1 + n2] (d1 ++ d2))
  | FloatT [n1; c1] d1, FloatT [n2; c2] d2 =>
      if c1 =? c2 then Ok (FloatT [n1 + n2; c1] (d1 ++ d2))
      else Raise RuntimeError
  | IntT [n1; c1] d1, IntT [n2; c2] d2 =>
      if c1 =? c2 then Ok (IntT [n1 + n2; c1] (d1 ++ d2))
      else Raise RuntimeError
  | _, _ => Raise RuntimeError
  end.

(** The [n] rows of width [c] of row-major data. *)
Definition rows_of {A} (n c : nat) (data : list A) : list (list A) :=
  map (fun i => take c (drop (i * c) data)) (seq 0 n).

(** The bounds of a slice [:k] or [k:] in a dimension of size [d]. *)
Definition slice_bound (k d : Z) : nat :=
  Z.to_nat (if k <? 0 then Z.max 0 (d + k) else Z.min k d).

(** [t[:, :, :k]] and [t[:, :, k:]] *)
Definition slice_last (upto : bool) (t : Tensor) (k : Z) : Res Tensor :=
  match t with
  | FloatT [b; s; d] data =>
      let cut := slice_bound k d in
      let rows := rows_of (Z.to_nat (b * s)) (Z.to_nat d) data in
      if upto
      then Ok (FloatT [b; s; Z.of_nat cut] (concat (map (take cut) rows)))
      else Ok (FloatT [b; s; d - Z.of_nat cut] (concat (map (drop cut) rows)))
  | _ => Raise IndexError
  end.

(** What this file imports and calls: the forward passes of the encoder
    and head modules ([modules]), the affine map of a [Linear] on one
    vector, and the numeric routines of [torch], [scipy] and [sklearn].
    Any of the calls may raise. *)
Record Ops := {
  (* [sent_encoder(field)] *)
  encoder_call : SentEncoderObj → BatchValue → Res (Tensor * Tensor);
  (* [sent_encoder(field, field_bwd)] of a [BiLMEncoder] *)
  bilm_call : BiLMEncoder → BatchValue → BatchValue → Res (Tensor * Tensor);
  bilm_output_dim : BiLMEncoder → Z;
  single_classifier_call : SingleClassifier → Tensor → Tensor → Res Tensor;
  pair_classifier_call :
    PairClassifier → Tensor → Tensor → Tensor → Tensor → Res Tensor;
  linear_map : Linear → list Scalar → list Scalar;
  (* a float as a byte, and the float zero *)
  to_byte : Scalar → Z;
  fzero : Scalar;
  (* the loss of one row of logits against its target class, and the
     average of the losses *)
  row_nll : list Scalar → Z → Scalar;
  mean : list Scalar → Scalar;
  mse_loss : Tensor → Tensor → Res Tensor;
  max_dim1 : Tensor → Res Tensor;
  matthews_corrcoef : Tensor → Tensor → Res Scalar;
  mean_squared_error : Tensor → Tensor → Res Scalar;
  pearsonr : Tensor → Tensor → Res Scalar;
  spearmanr : Tensor → Tensor → Res Scalar
}.

Variable ops : Ops.

(** [mask.byte()], entry by entry. *)
Definition byte (t : Tensor) : list Z :=
  match t with
  | IntT _ d => map (fun z => z mod 256) d
  | FloatT _ d => map (to_byte ops) d
  end.

(** [sent.masked_fill(1 - mask.byte(), 0)].  The byte arithmetic wraps at
    256; an entry is filled where the resulting byte is not zero.  The mask
    has the size of [sent], or that size with a last dimension of one (it
    then applies to whole vectors); other sizes do not broadcast here. *)
Definition masked_fill_inverse (sent mask : Tensor) : Res Tensor :=
  let fill := map (fun m => negb ((1 - m) mod 256 =? 0)) (byte mask) in
  match sent with
  | FloatT sh data =>
      if bool_decide (size mask = sh) then
        Ok (FloatT sh
              (zip_with (fun (f : bool) x => if f then fzero ops else x)
                 fill data))
      else
        match rev sh with
        | d :: sh' =>
            if bool_decide (size mask = rev (1 :: sh')) then
              Ok (FloatT sh
                    (concat
                       (zip_with
                          (fun (f : bool) row =>
                             if f then map (fun _ => fzero ops) row else row)
                          fill
                          (rows_of (length fill) (Z.to_nat d) data))))
            else Raise RuntimeError
        | [] => Raise RuntimeError
        end
  | IntT _ _ => Raise RuntimeError
  end.

(** [hid2voc(x)]: the affine map applied to every vector of the last
    dimension, which must have the size of the layer's input. *)
Definition linear_call (lin : Linear) (x : Tensor) : Res Tensor :=
  match x with
  | FloatT sh data =>
      match rev sh with
      | d :: sh' =>
          if (d =? lin_in_features lin) && (0 <? d) then
            let n := (length data / Z.to_nat d)%nat in
            Ok (FloatT (rev (lin_out_features lin :: sh'))
                  (concat (map (linear_map ops lin)
                             (rows_of n (Z.to_nat d) data))))
          else Raise RuntimeError
      | [] => Raise RuntimeError
      end
  | IntT _ _ => Raise RuntimeError
  end.

(** The rows of a two-dimensional float tensor. *)
Definition logit_rows (t : Tensor) : option (list (list Scalar)) :=
  match t with
  | FloatT [n; c] data => Some (rows_of (Z.to_nat n) (Z.to_nat c) data)
  | _ => None
  end.

(** The entries of a one-dimensional integer tensor. *)
Definition class_targets (t : Tensor) : option (list Z) :=
  match t with
  | IntT [_] data => Some data
  | _ => None
  end.

(** The rows that count: those whose target is not [ignore_index]. *)
Fixpoint counted_rows (ignore_index : Z) (rows : list (list Scalar))
    (targets : list Z) : list (list Scalar * Z) :=
  match rows, targets with
  | row :: rows', t :: targets' =>
      if t =? ignore_index then counted_rows ignore_index rows' targets'
      else (row, t) :: counted_rows ignore_index rows' targets'
  | _, _ => []
  end.

(** [F.cross_entropy(logits, targets, ignore_index=..)] on logits of size
    (N, C) and N class indices: the average, over the rows whose target is
    not [ignore_index], of the loss of the row against its target.  A
    target that counts must be a class index. *)
Definition cross_entropy (logits targets : Tensor) (ignore_index : Z)
  : Res Tensor :=
  match logit_rows logits, class_targets targets with
  | Some rows, Some ts =>
      if negb (length rows =? length ts)%nat then
        Raise (ValueError "Expected input batch_size to match target batch_size")
      else
        let counted := counted_rows ignore_index rows ts in
        if forallb (fun rt => (0 <=? snd rt)
                              && (snd rt <? Z.of_nat (length (fst rt))))
             counted
        then Ok (FloatT [] [mean ops (map (fun rt => row_nll ops (fst rt) (snd rt))
                                        counted)])
        else Raise RuntimeError
  | _, _ => Raise RuntimeError
  end.

(** The default [ignore_index] of [F.cross_entropy]. *)
Definition default_ignore_index : Z := -100.

(** [t.item()] *)
Definition item (t : Tensor) : Res Scalar :=
  match t with
  | FloatT _ [x] => Ok x
  | _ => Raise (ValueError "only one element tensors can be converted")
  end.

(** ** Scorer calls *)

Inductive ScoreArg :=
| ArgTensor (t : Tensor)
| ArgScalar (x : Scalar).

(** One call of a task's scorer, with its arguments. *)
Record ScorerCall := {
  call_scorer : Scorer;
  call_args : list ScoreArg
}.

(** [scorer(args)]: [None] is not callable. *)
Definition call_scorer_opt (s : option Scorer) (args : list ScoreArg)
  : Res ScorerCall :=
  match s with
  | Some sc => Ok {| call_scorer := sc; call_args := args |}
  | None => Raise TypeError
  end.

(** The mapping a forward pass returns. *)
Abbreviation Out := (gmap string Tensor).

(** ** [MultiTaskModel]: the forward passes (lines 294-423)

    A forward pass returns the mapping [out] and the scorer calls it made,
    in order. *)

(** [self.sent_encoder] and [self.vocab] *)
Definition model_sent_encoder (model : Model) : Res SentEncoderObj :=
  let? a := getattr model "sent_encoder" in
  match a with
  | AEncoder e => Ok e
  | _ => Raise TypeError
  end.

Definition model_vocab (model : Model) : Res Vocabulary :=
  let? a := getattr model "vocab" in
  match a with
  | AVocab v => Ok v
  | _ => Raise (AttributeError "get_token_index")
  end.

Definition _single_sentence_forward (model : Model) (batch : Batch) (task : Task)
  : Res (Out * list ScorerCall) :=
  let out : Out := ∅ in
  (* embed the sentence *)
  let? sent_encoder := model_sent_encoder model in
  let? input1 := batch_get batch "input1" in
  let? (sent_embs, sent_mask) := encoder_call ops sent_encoder input1 in
  (* pass to a task specific classifier *)
  let? classifier := getattr model (task_name task ++ "_mdl") in
  let? logits :=
    match classifier with
    | ASingle c => single_classifier_call ops c sent_embs sent_mask
    | _ => Raise TypeError
    end in
  let? (out, calls) :=
    if bool_decide (is_Some (batch !! "labels")) then
      let? labels := batch_get batch "labels" in
      let? labels := as_tensor labels in
      let labels := squeeze_last labels in
      let? loss := cross_entropy logits labels default_ignore_index in
      let out := <["loss" := loss]> out in
      if isinstance task CoLATask then
        let? c2 := call_scorer_opt (task_scorer2 task)
                     [ArgTensor logits; ArgTensor labels] in
        let? preds := max_dim1 ops logits in
        let? mcc := matthews_corrcoef ops labels preds in
        let? c1 := call_scorer_opt (task_scorer1 task) [ArgScalar mcc] in
        Ok (out, [c2; c1])
      else
        let? c1 := call_scorer_opt (task_scorer1 task)
                     [ArgTensor logits; ArgTensor labels] in
        match task_scorer2 task with
        | Some _ =>
            let? c2 := call_scorer_opt (task_scorer2 task)
                         [ArgTensor logits; ArgTensor labels] in
            Ok (out, [c1; c2])
        | None => Ok (out, [c1])
        end
    else Ok (out, []) in
  Ok (<["logits" := logits]> out, calls).

Definition _pair_sentence_forward (model : Model) (batch : Batch) (task : Task)
  : Res (Out * list ScorerCall) :=
  let out : Out := ∅ in
  (* embed the sentence *)
  let? sent_encoder := model_sent_encoder model in
  let? input1 := batch_get batch "input1" in
  let? (sent1, mask1) := encoder_call ops sent_encoder input1 in
  let? input2 := batch_get batch "input2" in
  let? (sent2, mask2) := encoder_call ops sent_encoder input2 in
  let? classifier := getattr model (task_name task ++ "_mdl") in
  let? logits :=
    match classifier with
    | APair c => pair_classifier_call ops c sent1 sent2 mask1 mask2
    | _ => Raise TypeError
    end in
  let out := <["logits" := logits]> out in
  if bool_decide (is_Some (batch !! "labels")) then
    let? labels := batch_get batch "labels" in
    let? labels := as_tensor labels in
    let labels := squeeze_last labels in
    if isinstance task JOCITask then
      let logits := squeeze_last logits in
      let? loss := mse_loss ops logits labels in
      let out := <["loss" := loss]> out in
      let? mse := mean_squared_error ops logits labels in
      let? c1 := call_scorer_opt (task_scorer1 task) [ArgScalar mse] in
      let? rho := spearmanr ops logits labels in
      let? c2 := call_scorer_opt (task_scorer2 task) [ArgScalar rho] in
      Ok (out, [c1; c2])
    else if isinstance task STSBTask then
      let logits := squeeze_last logits in
      let? loss := mse_loss ops logits labels in
      let out := <["loss" := loss]> out in
      let? r := pearsonr ops logits labels in
      let? c1 := call_scorer_opt (task_scorer1 task) [ArgScalar r] in
      let? rho := spearmanr ops logits labels in
      let? c2 := call_scorer_opt (task_scorer2 task) [ArgScalar rho] in
      Ok (out, [c1; c2])
    else
      let? loss := cross_entropy logits labels default_ignore_index in
      let out := <["loss" := loss]> out in
      let? c1 := call_scorer_opt (task_scorer1 task)
                   [ArgTensor logits; ArgTensor labels] in
      match task_scorer2 task with
      | Some _ =>
          let? c2 := call_scorer_opt (task_scorer2 task)
                       [ArgTensor logits; ArgTensor labels] in
          Ok (out, [c1; c2])
      | None => Ok (out, [c1])
      end
  else Ok (out, []).

Definition _seq_gen_forward (model : Model) (batch : Batch) (task : Task)
  : Res (Out * list ScorerCall) :=
  let out : Out := ∅ in
  let? inputs := batch_get batch "inputs" in
  let? words := field_get inputs "words" in
  let? (b_size, seq_len) := size2 words in
  let? sent_encoder := model_sent_encoder model in
  let? inputs := batch_get batch "inputs" in
  let? (sent, sent_mask) := encoder_call ops sent_encoder inputs in
  if bool_decide (is_Some (batch !! "targs")) then
    (* pass *)
    Ok (out, [])
  else Ok (out, []).

(** [getattr(self, "%s_hid2voc" % task.name)], called on one tensor. *)
Definition hid2voc_call (a : Attr) (x : Tensor) : Res Tensor :=
  match a with
  | ALinear lin => linear_call lin x
  | _ => Raise TypeError
  end.

Definition _lm_forward (model : Model) (batch : Batch) (task : Task)
  : Res (Out * list ScorerCall) :=
  let out : Out := ∅ in
  let? input := batch_get batch "input" in
  let? words := field_get input "words" in
  let? (b_size, seq_len) := size2 words in
  let? sent_encoder := model_sent_encoder model in
  let? (out, logits, targs) :=
    match sent_encoder with
    | EncBiLM bilm =>
        let? input := batch_get batch "input" in
        let? input_bwd := batch_get batch "input_bwd" in
        let? (sent, mask) := bilm_call ops bilm input input_bwd in
        let? sent := masked_fill_inverse sent mask in  (* avoid NaNs *)
        let split := Z.quot (bilm_output_dim ops bilm) 2 in
        let? fwd := slice_last true sent split in
        let? bwd := slice_last false sent split in
        let? hid2voc := getattr model (task_name task ++ "_hid2voc") in
        let? logits_fwd := hid2voc_call hid2voc fwd in
        let? logits_fwd := view_rows logits_fwd (b_size * seq_len) in
        let? logits_bwd := hid2voc_call hid2voc bwd in
        let? logits_bwd := view_rows logits_bwd (b_size * seq_len) in
        let? logits := cat0 logits_fwd logits_bwd in
        let out := <["logits" := logits]> out in
        let? trg_fwd := batch_get batch "targs" in
        let? trg_fwd := field_get trg_fwd "words" in
        let trg_fwd := view_flat trg_fwd in
        let? trg_bwd := batch_get batch "targs_b" in
        let? trg_bwd := field_get trg_bwd "words" in
        let trg_bwd := view_flat trg_bwd in
        let? targs := cat0 trg_fwd trg_bwd in
        Ok (out, logits, targs)
    | _ =>
        let? input := batch_get batch "input" in
        let? (sent, mask) := encoder_call ops sent_encoder input in
        let? sent := masked_fill_inverse sent mask in  (* avoid NaNs *)
        let? hid2voc := getattr model (task_name task ++ "_hid2voc") in
        let? logits := hid2voc_call hid2voc sent in
        let? logits := view_rows logits (b_size * seq_len) in
        let out := <["logits" := logits]> out in
        let? targs := batch_get batch "targs" in
        let? targs := field_get targs "words" in
        let targs := view_flat targs in
        Ok (out, logits, targs)
    end in
  let? vocab := model_vocab model in
  let pad_idx := get_token_index vocab (_padding_token vocab) in
  let? loss := cross_entropy logits targs pad_idx in
  let out := <["loss" := loss]> out in
  let? x := item loss in
  let? c1 := call_scorer_opt (task_scorer1 task) [ArgScalar x] in
  Ok (out, [c1]).

Definition _ranking_forward (model : Model) (batch : Batch) (task : Task)
  : Res (Out * list ScorerCall) :=
  Raise NotImplementedError.

Definition forward (model : Model) (task : Task) (batch : Batch)
  : Res (Out * list ScorerCall) :=
  if isinstance task SingleClassificationTask then
    _single_sentence_forward model batch task
  else if is_pair_task task then
    _pair_sentence_forward model batch task
  else if isinstance task LanguageModelingTask then
    _lm_forward model batch task
  else if isinstance task SequenceGenerationTask then
    _seq_gen_forward model batch task
  else if isinstance task RankingTask then
    _ranking_forward model batch task
  else
    Raise (ValueError "Task-specific components not found!").

(** *** Vocabulary for statements about the language-modeling loss *)

(** The targets the loss is computed against: [targs] flattened, followed
    by [targs_b] flattened when the encoder is a [BiLMEncoder]. *)
Definition lm_targets (bilm : bool) (batch : Batch) : Res Tensor :=
  let? trg_fwd := batch_get batch "targs" in
  let? trg_fwd := field_get trg_fwd "words" in
  if bilm then
    let? trg_bwd := batch_get batch "targs_b" in
    let? trg_bwd := field_get trg_bwd "words" in
    cat0 (view_flat trg_fwd) (view_flat trg_bwd)
  else Ok (view_flat trg_fwd).

Definition is_bilm (model : Model) : bool :=
  match model !! "sent_encoder" with
  | Some (AEncoder (EncBiLM _)) => true
  | _ => false
  end.

(** [self.vocab.get_token_index(self.vocab._padding_token)] *)
Definition padding_index (model : Model) : option Z :=
  match model !! "vocab" with
  | Some (AVocab v) => Some (get_token_index v (_padding_token v))
  | _ => None
  end.

(** Two logit tensors of the same size agree on every row whose target is
    not [pad]: they differ, if at all, at padding targets only. *)
Definition agree_off_padding (pad : Z) (targets logits1 logits2 : Tensor)
  : Prop :=
  size logits1 = size logits2
  ∧ ∃ ts rows1 rows2,
      class_targets targets = Some ts
      ∧ logit_rows logits1 = Some rows1
      ∧ logit_rows logits2 = Some rows2
      ∧ ∀ i t, ts !! i = Some t → t ≠ pad → rows1 !! i = rows2 !! i.

End Forward.

Arguments Tensor : clear implicits.
Arguments Ops : clear implicits.
Arguments BatchValue : clear implicits.
Arguments ScorerCall : clear implicits.

Abbreviation Batch Scalar := (gmap string (BatchValue Scalar)).
Abbreviation Out Scalar := (gmap string (Tensor Scalar)).

(** *** Vocabulary for statements about the completion of [build_modules] *)



(** The head under a task's name is the one built for that task: of the
    kind [forward] calls for its category, reading the encoder width
    [d_sent], with the task's own projection width and number of classes
    (1 for a pair task without [n_classes]) and the vocabulary size of the
    configuration. *)
Definition head_built_for (args : Args) (d_sent : Z) (model : Model)
    (task : Task) : Prop :=
  match category_of task with
  | Some CatSingle =>
      ∃ sc, model !! (task_name task ++ "_mdl") = Some (ASingle sc)
            ∧ pool_d_inp (sc_pooler sc) = d_sent
            ∧ spec_task_attr args (task_name task) "d_proj"
              = Some (pool_d_proj (sc_pooler sc))
            ∧ cls_d_inp (sc_classifier sc) = pool_d_proj (sc_pooler sc)
            ∧ task_n_classes task = Some (cls_n_classes (sc_classifier sc))
  | Some CatPair =>
      ∃ pc, model !! (task_name task ++ "_mdl") = Some (APair pc)
            ∧ pool_d_inp (pc_pooler pc) = d_sent
            ∧ spec_task_attr args (task_name task) "d_proj"
              = Some (pool_d_proj (pc_pooler pc))
            ∧ py_int_mul 4 (pool_d_proj (pc_pooler pc))
              = Ok (cls_d_inp (pc_classifier pc))
            ∧ cls_n_classes (pc_classifier pc)
              = match task_n_classes task with Some k => k | None => 1 end
  | Some CatLM =>
      ∃ lin, model !! (task_name task ++ "_hid2voc") = Some (ALinear lin)
             ∧ lin_in_features lin = d_sent
             ∧ lin_out_features lin = args_max_word_v_size args
  | Some CatSeqGen =>
      ∃ dec lin,
        model !! (task_name task ++ "_decoder") = Some (ADecoder dec)
        ∧ model !! (task_name task ++ "_hid2voc") = Some (ALinear lin)
        ∧ lin_in_features lin = args_d_hid_dec args
        ∧ lin_out_features lin = args_max_word_v_size args
        ∧ se_n_layers_highway dec = 0
  | Some CatRanking => True
  | None => False
  end.



(** ** Sample inputs

    Concrete configurations on which the definitions are run. *)

(** A decimal reader standing in for the builtin [int] on digit strings. *)
Fixpoint digits_value (acc : Z) (s : string) : option Z :=
  match s with
  | EmptyString => Some acc
  | String c s' =>
      let n := Z.of_nat (nat_of_ascii c) in
      if (48 <=? n) && (n <=? 57) then digits_value (10 * acc + (n - 48)) s'
      else None
  end.

Definition int_of_digits (s : string) : option Z :=
  match s with
  | EmptyString => None
  | _ => digits_value 0 s
  end.

Definition env_with_cove : Env :=
  {| cove_importable := fun _ => true; py_int := int_of_digits |}.
Definition env_without_cove : Env :=
  {| cove_importable := fun _ => false; py_int := int_of_digits |}.

Definition sample_vocab : Vocabulary :=
  {| get_vocab_size := fun ns => if String.eqb ns "chars" then 60 else 100;
     get_token_index := fun tok => if String.eqb tok "@@PADDING@@" then 0 else 1;
     _padding_token := "@@PADDING@@" |}.

(** Word embeddings learned from scratch, a bidirectional RNN encoder, no
    character, ELMo or CoVe embeddings, no per-task overrides. *)
Definition sample_args : Args :=
  {| args_d_hid := 128; args_d_tproj := 64; args_d_ff := 256;
     args_n_layers_enc := 1; args_n_heads := 4; args_bidirectional := 1;
     args_sent_enc := "rnn"; args_n_layers_highway := 0;
     args_dropout := Qmake 1 5; args_skip_embs := 0; args_cuda := -1;
     args_sent_combine_method := "max"; args_d_char := 100;
     args_word_embs := "scratch"; args_word_embs_file := "";
     args_d_word := 300; args_cove := 0; args_path_to_cove := "";
     args_char_embs := 0; args_char_filter_sizes := "2,3,4,5";
     args_n_char_filters := 100; args_dropout_embs := Qmake 1 5;
     args_elmo := 0; args_elmo_chars_only := 0; args_classifier := "mlp";
     args_classifier_hid_dim := 512; args_d_proj := 512;
     args_shared_pair_attn := 0; args_pair_attn := 1;
     args_classifier_dropout := Qmake 1 5; args_max_word_v_size := 30000;
     args_d_hid_dec := 300; args_n_layers_dec := 1; args_extras := ∅ |}.

Definition set_embs (a : Args) (word_embs : string) (d_word cove char_embs elmo : Z)
  : Args :=
  {| args_d_hid := args_d_hid a; args_d_tproj := args_d_tproj a;
     args_d_ff := args_d_ff a; args_n_layers_enc := args_n_layers_enc a;
     args_n_heads := args_n_heads a; args_bidirectional := args_bidirectional a;
     args_sent_enc := args_sent_enc a;
     args_n_layers_highway := args_n_layers_highway a;
     args_dropout := args_dropout a; args_skip_embs := args_skip_embs a;
     args_cuda := args_cuda a;
     args_sent_combine_method := args_sent_combine_method a;
     args_d_char := args_d_char a; args_word_embs := word_embs;
     args_word_embs_file := args_word_embs_file a; args_d_word := d_word;
     args_cove := cove; args_path_to_cove := args_path_to_cove a;
     args_char_embs := char_embs;
     args_char_filter_sizes := args_char_filter_sizes a;
     args_n_char_filters := args_n_char_filters a;
     args_dropout_embs := args_dropout_embs a; args_elmo := elmo;
     args_elmo_chars_only := args_elmo_chars_only a;
     args_classifier := args_classifier a;
     args_classifier_hid_dim := args_classifier_hid_dim a;
     args_d_proj := args_d_proj a;
     args_shared_pair_attn := args_shared_pair_attn a;
     args_pair_attn := args_pair_attn a;
     args_classifier_dropout := args_classifier_dropout a;
     args_max_word_v_size := args_max_word_v_size a;
     args_d_hid_dec := args_d_hid_dec a; args_n_layers_dec := args_n_layers_dec a;
     args_extras := args_extras a |}.

Definition set_shared_pair_attn (a : Args) (shared : Z)
    (extras : gmap string PyVal) : Args :=
  {| args_d_hid := args_d_hid a; args_d_tproj := args_d_tproj a;
     args_d_ff := args_d_ff a; args_n_layers_enc := args_n_layers_enc a;
     args_n_heads := args_n_heads a; args_bidirectional := args_bidirectional a;
     args_sent_enc := args_sent_enc a;
     args_n_layers_highway := args_n_layers_highway a;
     args_dropout := args_dropout a; args_skip_embs := args_skip_embs a;
     args_cuda := args_cuda a;
     args_sent_combine_method := args_sent_combine_method a;
     args_d_char := args_d_char a; args_word_embs := args_word_embs a;
     args_word_embs_file := args_word_embs_file a; args_d_word := args_d_word a;
     args_cove := args_cove a; args_path_to_cove := args_path_to_cove a;
     args_char_embs := args_char_embs a;
     args_char_filter_sizes := args_char_filter_sizes a;
     args_n_char_filters := args_n_char_filters a;
     args_dropout_embs := args_dropout_embs a; args_elmo := args_elmo a;
     args_elmo_chars_only := args_elmo_chars_only a;
     args_classifier := args_classifier a;
     args_classifier_hid_dim := args_classifier_hid_dim a;
     args_d_proj := args_d_proj a;
     args_shared_pair_attn := shared;
     args_pair_attn := args_pair_attn a;
     args_classifier_dropout := args_classifier_dropout a;
     args_max_word_v_size := args_max_word_v_size a;
     args_d_hid_dec := args_d_hid_dec a; args_n_layers_dec := args_n_layers_dec a;
     args_extras := extras |}.

Definition set_encoder (a : Args) (sent_enc : string) (bidirectional skip_embs : Z)
  : Args :=
  {| args_d_hid := args_d_hid a; args_d_tproj := args_d_tproj a;
     args_d_ff := args_d_ff a; args_n_layers_enc := args_n_layers_enc a;
     args_n_heads := args_n_heads a; args_bidirectional := bidirectional;
     args_sent_enc := sent_enc;
     args_n_layers_highway := args_n_layers_highway a;
     args_dropout := args_dropout a; args_skip_embs := skip_embs;
     args_cuda := args_cuda a;
     args_sent_combine_method := args_sent_combine_method a;
     args_d_char := args_d_char a; args_word_embs := args_word_embs a;
     args_word_embs_file := args_word_embs_file a; args_d_word := args_d_word a;
     args_cove := args_cove a; args_path_to_cove := args_path_to_cove a;
     args_char_embs := args_char_embs a;
     args_char_filter_sizes := args_char_filter_sizes a;
     args_n_char_filters := args_n_char_filters a;
     args_dropout_embs := args_dropout_embs a; args_elmo := args_elmo a;
     args_elmo_chars_only := args_elmo_chars_only a;
     args_classifier := args_classifier a;
     args_classifier_hid_dim := args_classifier_hid_dim a;
     args_d_proj := args_d_proj a;
     args_shared_pair_attn := args_shared_pair_attn a;
     args_pair_attn := args_pair_attn a;
     args_classifier_dropout := args_classifier_dropout a;
     args_max_word_v_size := args_max_word_v_size a;
     args_d_hid_dec := args_d_hid_dec a; args_n_layers_dec := args_n_layers_dec a;
     args_extras := args_extras a |}.

Definition mk_task (name : string) (classes : list TaskClass)
    (n_classes : option Z) (sid : nat) : Task :=
  {| task_name := name; task_classes := classes; task_n_classes := n_classes;
     task_scorer1 := Some {| scorer_id := sid |};
     task_scorer2 := Some {| scorer_id := S sid |} |}.

Definition task_sst : Task :=
  mk_task "sst" [SSTTask; SingleClassificationTask] (Some 2) 100.
Definition task_cola : Task :=
  mk_task "cola" [CoLATask; SingleClassificationTask] (Some 2) 102.
Definition task_mnli : Task := mk_task "mnli" [PairClassificationTask] (Some 3) 104.
Definition task_rte : Task := mk_task "rte" [PairClassificationTask] (Some 2) 106.
Definition task_stsb : Task := mk_task "sts-b" [STSBTask; PairRegressionTask] None 108.
Definition task_lm : Task := mk_task "wiki" [LanguageModelingTask] None 110.
Definition task_mt : Task := mk_task "mt" [SequenceGenerationTask] None 112.
Definition task_rank : Task := mk_task "caption" [RankingTask] None 114.
Definition task_unknown : Task := mk_task "misc" [] None 116.

Definition sample_tasks : list Task :=
  [task_sst; task_mnli; task_rte; task_lm; task_mt; task_rank].

(** The embedder [build_embeddings] returns for [sample_args]. *)
Definition sample_embedder : BasicTextFieldEmbedder :=
  {| tfe_id := 1;
     tfe_token_embedders :=
       {[ "words" :=
            TEWords {| emb_id := 0; emb_num_embeddings := 100;
                       emb_embedding_dim := 300; emb_weight := None;
                       emb_trainable := false;
                       emb_padding_index := Some 0 |} ]} |}.

Definition sample_encoder : SentEncoderObj :=
  EncBoW {| bow_id := 2; bow_vocab := sample_vocab;
            bow_embedder := sample_embedder |}.

(** A new model container, before any head is attached. *)
Definition sample_model : Model :=
  MultiTaskModel sample_args sample_encoder sample_vocab.

(** Imported routines on integer "floats", for running the forward passes:
    the encoder maps a token [t] to the vector [[t; t + 1]] and masks the
    padding token 0; a linear layer of [k] outputs maps a vector to its sum
    times 1..k; the loss of a row is minus its entry at the target. *)
Definition sample_encode (words : Tensor Z) : Res (Tensor Z * Tensor Z) :=
  match words with
  | IntT [b; s] data =>
      Ok (FloatT [b; s; 2] (concat (map (fun t => [t; t + 1]) data)),
          FloatT [b; s; 1] (map (fun t => if t =? 0 then 0 else 1) data))
  | _ => Raise RuntimeError
  end.

Definition sample_encode_field (v : BatchValue Z) : Res (Tensor Z * Tensor Z) :=
  match v with
  | BText f => match f !! "words" with
               | Some w => sample_encode w
               | None => Raise (KeyError "words")
               end
  | BTensor _ => Raise TypeError
  end.

Definition zsum (l : list Z) : Z := fold_right Z.add 0 l.

Definition sample_ops : Ops Z :=
  {| encoder_call := fun _ v => sample_encode_field v;
     bilm_call := fun _ v _ => sample_encode_field v;
     bilm_output_dim := fun _ => 2;
     single_classifier_call := fun c sent _ =>
       Ok (FloatT [2; cls_n_classes (sc_classifier c)] [1; 2; 3; 4]);
     pair_classifier_call := fun c s1 s2 _ _ =>
       Ok (FloatT [2; cls_n_classes (pc_classifier c)] [1; 2; 3; 4]);
     linear_map := fun lin row =>
       map (fun j => zsum row * Z.of_nat (S j))
         (seq 0 (Z.to_nat (lin_out_features lin)));
     to_byte := fun z => z mod 256;
     fzero := 0;
     row_nll := fun row t => - nth (Z.to_nat t) row 0;
     mean := fun l => zsum l / Z.of_nat (length l);
     mse_loss := fun a b => Ok (FloatT [] [0]);
     max_dim1 := fun t => Ok (IntT [2] [1; 1]);
     matthews_corrcoef := fun _ _ => Ok 0;
     mean_squared_error := fun _ _ => Ok 0;
     pearsonr := fun _ _ => Ok 0;
     spearmanr := fun _ _ => Ok 0 |}.

Definition text_field (b s : Z) (words : list Z) : BatchValue Z :=
  BText {[ "words" := IntT [b; s] words ]}.

(** A model with the heads of sst (2 classes), rte, wiki (3 words) and mt. *)
Definition sample_head_sst : SingleClassifier :=
  {| sc_id := 12;
     sc_pooler := {| pool_id := 10; pool_d_inp := 2; pool_d_proj := VInt 4 |};
     sc_classifier :=
       {| cls_id := 11; cls_d_inp := VInt 4; cls_n_classes := 2;
          cls_params :=
            {| p_cls_type := VStr "mlp"; p_d_hid := VInt 8; p_d_proj := VInt 4;
               p_shared_pair_attn := VInt 0; p_attn := VInt 0;
               p_dropout := VFloat (Qmake 1 5) |} |} |}.

Definition sample_forward_model : Model :=
  <["sst_mdl" := ASingle sample_head_sst]>
    (<["wiki_hid2voc" :=
         ALinear {| lin_id := 20; lin_in_features := 2; lin_out_features := 3 |}]>
       sample_model).

(** Two sentences of two tokens, without and with labels. *)
Definition batch_sst : Batch Z :=
  {[ "input1" := text_field 2 2 [5; 6; 7; 0] ]}.
Definition batch_sst_labelled : Batch Z :=
  <["labels" := BTensor (IntT [2; 1] [0; 1])]> batch_sst.

(** A sequence-generation batch with targets. *)
Definition batch_mt : Batch Z :=
  {[ "inputs" := text_field 1 3 [5; 6; 7];
     "targs" := text_field 1 3 [6; 7; 8] ]}.

(** Language-modeling batches of one sentence of three tokens; the target
    at the middle position is the padding index 0.  The two batches differ
    in the input token at that position only. *)
Definition batch_lm : Batch Z :=
  {[ "input" := text_field 1 3 [5; 6; 7];
     "targs" := text_field 1 3 [1; 0; 2] ]}.
Definition batch_lm' : Batch Z :=
  {[ "input" := text_field 1 3 [5; 9; 7];
     "targs" := text_field 1 3 [1; 0; 2] ]}.
Definition batch_lm_no_targets : Batch Z :=
  {[ "input" := text_field 1 3 [5; 6; 7] ]}.

(** * Properties *)

(** ** [build_embeddings] *)

Ltac run_M :=
  unfold bind, ret, lift, fresh, raise, read_local, res_bind in *; simpl in *.

(** With every source off, CoVe off (or not importable), the assertion on
    the total width fires. *)
Lemma build_embeddings_all_off_assert env args vocab pre n :
  some_source_on args = false →
  cove_on args && cove_importable env (args_path_to_cove args) = false →
  build_embeddings env args vocab pre n = Raise (AssertionError assert_msg).
Proof.
  unfold some_source_on, word_on, char_on, elmo_on, cove_on.
  intros Hs Hc.
  apply orb_false_elim in Hs as [Hs He].
  apply orb_false_elim in Hs as [Hw Hch].
  unfold build_embeddings. rewrite Hw, Hch, He. run_M.
  destruct (truthyZ (args_cove args)); simpl in *.
  - rewrite Hc. reflexivity.
  - reflexivity.
Qed.

(** With word embeddings off, an importable CoVe reads the local
    [embeddings] before any assignment. *)
Lemma build_embeddings_cove_without_words env args vocab pre n :
  word_on args = false → cove_on args = true →
  cove_importable env (args_path_to_cove args) = true →
  build_embeddings env args vocab pre n = Raise (UnboundLocalError "embeddings").
Proof.
  unfold word_on, cove_on. intros Hw Hc Hi.
  unfold build_embeddings. rewrite Hw, Hc, Hi. reflexivity.
Qed.

(** When the CoVe import fails, [cove_emb] is never assigned: whatever the
    other options, the call does not return. *)
Lemma build_embeddings_cove_import_failure env args vocab pre n :
  cove_on args = true →
  cove_importable env (args_path_to_cove args) = false →
  ∀ r, build_embeddings env args vocab pre n ≠ Ok r.
Proof.
  unfold cove_on. intros Hc Hi r.
  unfold build_embeddings. rewrite Hc, Hi. run_M.
  repeat match goal with
         | |- context [match ?x with _ => _ end] => destruct x; simpl; try congruence
         | |- context [if ?b then _ else _] => destruct b; simpl; try congruence
         end.
Qed.

Lemma build_embeddings_returns env args vocab pre n dw :
  cove_constructible env args = true →
  (word_on args = true → word_width args pre = Ok dw) →
  (char_on args = true →
   ∃ zs, ints_of env (split_on "," (args_char_filter_sizes args)) = Ok zs) →
  total_width args dw ≠ 0 →
  ∃ embedder cove_emb n',
    build_embeddings env args vocab pre n
    = Ok (total_width args dw, embedder, cove_emb, n').
Proof.
  unfold cove_constructible, total_width, word_width, cove_on, word_on,
    char_on, elmo_on, elmo_width.
  intros Hcove Hw Hch Hnz. unfold build_embeddings.
  destruct (negb (String.eqb (args_word_embs args) "none")) eqn:Ew;
    destruct (truthyZ (args_cove args)) eqn:Ec; simpl in Hcove; try discriminate;
    destruct (truthyZ (args_char_embs args)) eqn:Ech;
    destruct (truthyZ (args_elmo args)) eqn:Ee;
    destruct (truthyZ (args_elmo_chars_only args)) eqn:Eo;
    try rewrite Hcove;
    try (specialize (Hw eq_refl));
    try (destruct (Hch eq_refl) as [zs Hzs]);
    run_M;
    try rewrite Hzs;
    try (destruct pre as [p|];
         [ destruct (String.eqb (args_word_embs args) "glove"
                     || String.eqb (args_word_embs args) "fastText");
           simpl in *; [ rewrite Hw | injection Hw as <- ]
         | injection Hw as <- ]);
    simpl.
  all: try match goal with
    | |- context [truthyZ ?d] =>
        replace (truthyZ d) with true
          by (symmetry; unfold truthyZ; apply negb_true_iff, Z.eqb_neq;
              intros Heq; apply Hnz; lia)
    end.
  all: simpl;
    try match goal with
    | |- ∃ _ _ _, Ok (?d, _, _, _) = Ok (?d', _, _, _) =>
        replace d with d' by lia
    end; eauto.
  all: exfalso; apply Hnz; reflexivity.
Qed.

Lemma total_width_pos args dw :
  some_source_on args = true →
  (word_on args = true → 0 < dw) →
  (char_on args = true → 0 < args_d_char args) →
  0 < total_width args dw.
Proof.
  unfold some_source_on, total_width, elmo_width. intros Hs Hw Hc.
  destruct (word_on args), (char_on args), (elmo_on args), (cove_on args),
    (truthyZ (args_elmo_chars_only args));
    simpl in Hs; try discriminate;
    try specialize (Hw eq_refl); try specialize (Hc eq_refl); lia.
Qed.

(** A returned width has passed [assert d_emb]. *)
Lemma build_embeddings_nonzero env args vocab pre n d e c n' :
  build_embeddings env args vocab pre n = Ok (d, e, c, n') → d ≠ 0.
Proof.
  unfold build_embeddings. run_M.
  repeat match goal with
         | |- context [match ?x with _ => _ end] =>
             destruct x eqn:?; simpl; try congruence
         end;
    intros [= <- _ _ _];
    match goal with
    | H : negb (truthyZ ?d) = false |- _ =>
        unfold truthyZ in H; rewrite negb_involutive in H;
        apply Z.eqb_neq in H; exact H
    end.
Qed.

(** C2 (amended).  With some source enabled, positive widths of the
    enabled word and character sources, readable character filter sizes and
    a CoVe layer that is off or constructible, [build_embeddings] returns
    the sum of the enabled widths, which is positive.  With every source
    disabled it never returns, and fails on the width assertion when CoVe
    is off or cannot be imported.  It never returns width zero. *)
Theorem build_embeddings_width_contract env args vocab pre n :
  (∀ dw,
      some_source_on args = true →
      cove_constructible env args = true →
      (word_on args = true → word_width args pre = Ok dw ∧ 0 < dw) →
      (char_on args = true →
       0 < args_d_char args
       ∧ ∃ zs, ints_of env (split_on "," (args_char_filter_sizes args)) = Ok zs) →
      ∃ embedder cove_emb n',
        build_embeddings env args vocab pre n
        = Ok (total_width args dw, embedder, cove_emb, n')
        ∧ 0 < total_width args dw)
  ∧ (some_source_on args = false →
     (∀ r, build_embeddings env args vocab pre n ≠ Ok r)
     ∧ (cove_on args && cove_importable env (args_path_to_cove args) = false →
        build_embeddings env args vocab pre n
        = Raise (AssertionError assert_msg)))
  ∧ (∀ d embedder cove_emb n',
        build_embeddings env args vocab pre n = Ok (d, embedder, cove_emb, n') →
        d ≠ 0).
Proof.
  split; [| split].
  - intros dw Hs Hc Hw Hch.
    assert (Hpos : 0 < total_width args dw).
    { apply total_width_pos; [exact Hs | apply Hw | apply Hch]. }
    destruct (build_embeddings_returns env args vocab pre n dw)
      as (e & c & n' & Heq); try assumption.
    + apply Hw.
    + apply Hch.
    + lia.
    + exists e, c, n'. split; assumption.
  - intros Hs. split.
    + intros r Hr.
      destruct (cove_on args && cove_importable env (args_path_to_cove args))
        eqn:Hc.
      * apply andb_true_iff in Hc as [Hc Hi].
        unfold some_source_on in Hs.
        apply orb_false_elim in Hs as [Hs _].
        apply orb_false_elim in Hs as [Hw _].
        rewrite (build_embeddings_cove_without_words env args vocab pre n Hw Hc Hi)
          in Hr.
        discriminate.
      * rewrite (build_embeddings_all_off_assert env args vocab pre n Hs Hc) in Hr.
        discriminate.
    + apply build_embeddings_all_off_assert; assumption.
  - intros d e c n'. apply build_embeddings_nonzero.
Qed.

(** The contract at the sample configuration (word embeddings of width
    300 only) and at the same configuration with the words turned off. *)
Lemma build_embeddings_width_contract_witness :
  (∃ embedder cove_emb n',
      build_embeddings env_with_cove sample_args sample_vocab None 0%nat
      = Ok (300, embedder, cove_emb, n'))
  ∧ build_embeddings env_with_cove (set_embs sample_args "none" 300 0 0 0)
      sample_vocab None 0%nat
    = Raise (AssertionError assert_msg).
Proof.
  split.
  - destruct (build_embeddings_width_contract env_with_cove sample_args
                sample_vocab None 0%nat) as [H _].
    destruct (H 300) as (e & c & n' & Heq & _).
    + reflexivity.
    + reflexivity.
    + intros _. split; [reflexivity | lia].
    + intros Hc. discriminate Hc.
    + exists e, c, n'. exact Heq.
  - destruct (build_embeddings_width_contract env_with_cove
                (set_embs sample_args "none" 300 0 0 0)
                sample_vocab None 0%nat) as (_ & H & _).
    destruct (H eq_refl) as [_ H2]. apply H2. reflexivity.
Defined.

(** C2, as stated, fails: word embeddings are enabled (learned from
    scratch) with [d_word = 0]; the only enabled source has width zero and
    the call raises instead of returning a positive width. *)
Lemma build_embeddings_enabled_source_may_fail :
  let args := set_embs sample_args "scratch" 0 0 0 0 in
  some_source_on args = true
  ∧ build_embeddings env_with_cove args sample_vocab None 0%nat
    = Raise (AssertionError assert_msg)
  ∧ ¬ ∃ d embedder cove_emb n',
        build_embeddings env_with_cove args sample_vocab None 0%nat
        = Ok (d, embedder, cove_emb, n') ∧ 0 < d.
Proof.
  simpl. split; [reflexivity | split; [reflexivity |]].
  intros (d & e & c & n' & H & _). vm_compute in H. discriminate H.
Qed.

(** C7: with CoVe enabled over word embeddings and the import failing,
    the fallback logs and goes on, but [cove_emb] was never assigned and
    the final [return] raises. *)
Theorem build_embeddings_cove_fallback_raises :
  build_embeddings env_without_cove (set_embs sample_args "scratch" 300 1 0 0)
    sample_vocab None 0%nat
  = Raise (UnboundLocalError "cove_emb").
Proof. reflexivity. Qed.

(** C10.  With CoVe enabled and word embeddings 'none', the CoVe branch
    (its module imported) reads the local [embeddings], which was never
    assigned: the call fails with [UnboundLocalError], a [NameError] that
    no handler catches, and not with the assertion on the width. *)
Theorem build_embeddings_cove_needs_words env args vocab pre n :
  cove_on args = true → word_on args = false →
  cove_importable env (args_path_to_cove args) = true →
  build_embeddings env args vocab pre n = Raise (UnboundLocalError "embeddings")
  ∧ is_name_error (UnboundLocalError "embeddings") = true
  ∧ build_embeddings env args vocab pre n ≠ Raise (AssertionError assert_msg).
Proof.
  intros Hc Hw Hi.
  rewrite (build_embeddings_cove_without_words env args vocab pre n Hw Hc Hi).
  split; [reflexivity |]. split; [reflexivity | discriminate].
Qed.

Lemma build_embeddings_cove_needs_words_witness :
  build_embeddings env_with_cove (set_embs sample_args "none" 300 1 1 0)
    sample_vocab None 0%nat
  = Raise (UnboundLocalError "embeddings").
Proof.
  apply (build_embeddings_cove_needs_words env_with_cove
           (set_embs sample_args "none" 300 1 1 0) sample_vocab None 0%nat);
    reflexivity.
Defined.

(** ** [build_model]: the width of the sentence encoder *)

Lemma count_lm_tasks_none tasks :
  Forall (fun t => isinstance t LanguageModelingTask = false) tasks →
  count_lm_tasks tasks = 0.
Proof.
  induction 1 as [| t ts Ht _ IH]; simpl; [reflexivity |].
  rewrite Ht, IH. reflexivity.
Qed.




(** ** [get_task_specific_params] *)

Lemma args_attr_spec args name v :
  args_getattr args name = Some v → args_attr args name = Ok v.
Proof. unfold args_attr. intros ->. reflexivity. Qed.

Lemma get_task_attr_spec args task attr v :
  args_getattr args attr = Some v →
  ∃ r, get_task_attr args task attr = Ok r
       ∧ spec_task_attr args task attr = Some r.
Proof.
  intros Hg. unfold get_task_attr, spec_task_attr, args_hasattr, args_attr.
  destruct (args_getattr args (task ++ "_" ++ attr)) as [v' |] eqn:E.
  - rewrite bool_decide_eq_true_2 by eauto. eauto.
  - rewrite bool_decide_eq_false_2 by (intros [? ?]; discriminate).
    rewrite Hg. eauto.
Qed.

(** C9 (amended).  The classifier type, the classifier hidden dimension
    and [d_proj] are always resolved from "<task>_<attr>" when that key is
    present and from the global "<attr>" otherwise; [pair_attn] and the
    classifier dropout are resolved that way only when [shared_pair_attn]
    is off, and are the global values whenever it is on. *)
Theorem get_task_specific_params_resolution args task :
  ∃ p, get_task_specific_params args task = Ok p
       ∧ spec_task_attr args task "classifier" = Some (p_cls_type p)
       ∧ spec_task_attr args task "classifier_hid_dim" = Some (p_d_hid p)
       ∧ spec_task_attr args task "d_proj" = Some (p_d_proj p)
       ∧ (truthyZ (args_shared_pair_attn args) = false →
          spec_task_attr args task "pair_attn" = Some (p_attn p)
          ∧ spec_task_attr args task "classifier_dropout" = Some (p_dropout p))
       ∧ (truthyZ (args_shared_pair_attn args) = true →
          args_getattr args "pair_attn" = Some (p_attn p)
          ∧ args_getattr args "classifier_dropout" = Some (p_dropout p)).
Proof.
  unfold get_task_specific_params.
  destruct (get_task_attr_spec args task "classifier" _ eq_refl)
    as (c & -> & Hc).
  destruct (get_task_attr_spec args task "classifier_hid_dim" _ eq_refl)
    as (h & -> & Hh).
  destruct (get_task_attr_spec args task "d_proj" _ eq_refl) as (d & -> & Hd).
  simpl.
  destruct (truthyZ (args_shared_pair_attn args)) eqn:Hs; simpl.
  - eexists. split; [reflexivity |]. simpl.
    repeat split; try assumption; discriminate.
  - destruct (get_task_attr_spec args task "pair_attn" _ eq_refl)
      as (a & -> & Ha).
    destruct (get_task_attr_spec args task "classifier_dropout" _ eq_refl)
      as (dr & -> & Hdr).
    simpl. eexists. split; [reflexivity |]. simpl.
    repeat split; try assumption; discriminate.
Qed.

(** The resolution at task "rte" with the override [rte_d_proj = 64] and
    pair attention not shared. *)
Lemma get_task_specific_params_resolution_witness :
  ∃ p, get_task_specific_params
         (set_shared_pair_attn sample_args 0
            {[ "rte_pair_attn" := VInt 0; "rte_d_proj" := VInt 64 ]}) "rte"
       = Ok p
       ∧ p_d_proj p = VInt 64 ∧ p_d_hid p = VInt 512 ∧ p_attn p = VInt 0.
Proof.
  destruct (get_task_specific_params_resolution
              (set_shared_pair_attn sample_args 0
                 {[ "rte_pair_attn" := VInt 0; "rte_d_proj" := VInt 64 ]}) "rte")
    as (p & Hp & _ & Hh & Hd & Hoff & _).
  destruct (Hoff eq_refl) as [Ha _].
  exists p. split; [exact Hp |].
  assert (Eh : spec_task_attr
                 (set_shared_pair_attn sample_args 0
                    {[ "rte_pair_attn" := VInt 0; "rte_d_proj" := VInt 64 ]})
                 "rte" "classifier_hid_dim" = Some (VInt 512))
    by (vm_compute; reflexivity).
  assert (Ed : spec_task_attr
                 (set_shared_pair_attn sample_args 0
                    {[ "rte_pair_attn" := VInt 0; "rte_d_proj" := VInt 64 ]})
                 "rte" "d_proj" = Some (VInt 64))
    by (vm_compute; reflexivity).
  assert (Ea : spec_task_attr
                 (set_shared_pair_attn sample_args 0
                    {[ "rte_pair_attn" := VInt 0; "rte_d_proj" := VInt 64 ]})
                 "rte" "pair_attn" = Some (VInt 0))
    by (vm_compute; reflexivity).
  rewrite Eh in Hh. rewrite Ed in Hd. rewrite Ea in Ha.
  injection Hh as <-. injection Hd as <-. injection Ha as <-.
  repeat split.
Defined.

(** C9, as stated, fails for the pair-attention switch: with
    [shared_pair_attn] on, the key [rte_pair_attn = 0] is present and the
    resolved value is the global [pair_attn = 1]. *)
Lemma get_task_specific_params_ignores_override :
  let args := set_shared_pair_attn sample_args 1
                {[ "rte_pair_attn" := VInt 0 ]} in
  args_getattr args "rte_pair_attn" = Some (VInt 0)
  ∧ ∃ p, get_task_specific_params args "rte" = Ok p
         ∧ p_attn p = VInt 1
         ∧ spec_task_attr args "rte" "pair_attn" ≠ Some (p_attn p).
Proof.
  simpl. split; [reflexivity |].
  eexists. split; [reflexivity |]. split; [reflexivity |].
  vm_compute. discriminate.
Qed.

(** ** Strings: member names never clash across kinds *)

Lemma last_char_app s t : t ≠ "" → last_char (s ++ t) = last_char t.
Proof.
  intros Ht. induction s as [| c s IH]; [reflexivity |].
  change (String c s ++ t) with (String c (s ++ t)).
  rewrite <- IH. simpl. destruct (s ++ t) eqn:E; [| reflexivity].
  destruct s as [| c' s'].
  - change ("" ++ t) with t in E. congruence.
  - change (String c' s' ++ t) with (String c' (s' ++ t)) in E. discriminate.
Qed.

Lemma list_ascii_of_string_app s t :
  list_ascii_of_string (s ++ t)
  = (list_ascii_of_string s ++ list_ascii_of_string t)%list.
Proof.
  induction s as [| c s IH]; [reflexivity |].
  change (String c s ++ t) with (String c (s ++ t)). simpl. now rewrite IH.
Qed.

Lemma string_app_inv_tail s1 s2 t : s1 ++ t = s2 ++ t → s1 = s2.
Proof.
  intros H. apply (f_equal list_ascii_of_string) in H.
  rewrite !list_ascii_of_string_app in H.
  apply app_inv_tail in H.
  rewrite <- (string_of_list_ascii_of_string s1),
    <- (string_of_list_ascii_of_string s2).
  now rewrite H.
Qed.

Ltac last_char_clash :=
  match goal with
  | H : (_ ++ _)%string = _ |- _ =>
      apply (f_equal last_char) in H;
      rewrite ?last_char_app in H by discriminate;
      cbn in H; discriminate H
  | H : _ = (_ ++ _)%string |- _ =>
      apply (f_equal last_char) in H;
      rewrite ?last_char_app in H by discriminate;
      cbn in H; discriminate H
  end.

Lemma hid2voc_not_decoder s1 s2 : s1 ++ "_hid2voc" ≠ s2 ++ "_decoder".
Proof. intros H. last_char_clash. Qed.
Lemma mdl_not_pair_attn s : s ++ "_mdl" ≠ "pair_attn".
Proof. intros H. last_char_clash. Qed.
Lemma hid2voc_not_pair_attn s : s ++ "_hid2voc" ≠ "pair_attn".
Proof. intros H. last_char_clash. Qed.
Lemma decoder_not_pair_attn s : s ++ "_decoder" ≠ "pair_attn".
Proof. intros H. last_char_clash. Qed.

(** ** [build_modules]: what one task does to the model *)

Lemma get_task_specific_params_ok args task :
  ∃ p, get_task_specific_params args task = Ok p
       ∧ p_shared_pair_attn p = VInt (args_shared_pair_attn args).
Proof.
  unfold get_task_specific_params.
  destruct (get_task_attr_spec args task "classifier" _ eq_refl) as (c & -> & _).
  destruct (get_task_attr_spec args task "classifier_hid_dim" _ eq_refl)
    as (h & -> & _).
  destruct (get_task_attr_spec args task "d_proj" _ eq_refl) as (d & -> & _).
  simpl.
  destruct (truthyZ (args_shared_pair_attn args)); simpl.
  - eauto.
  - destruct (get_task_attr_spec args task "pair_attn" _ eq_refl)
      as (a & -> & _).
    destruct (get_task_attr_spec args task "classifier_dropout" _ eq_refl)
      as (dr & -> & _).
    simpl. eauto.
Qed.

Lemma build_pair_sentence_module_step args task d m vocab p n pc m1 n' :
  p_shared_pair_attn p = VInt (args_shared_pair_attn args) →
  build_pair_sentence_module task d m vocab p n = Ok (pc, m1, n') →
  pair_attn_step args m m1 pc.
Proof.
  intros Hp. unfold build_pair_sentence_module, pair_attn_step, hasattr, getattr.
  rewrite Hp. simpl truthy.
  destruct (truthyZ (args_shared_pair_attn args)).
  - destruct (m !! "pair_attn") as [a |] eqn:Ea.
    + rewrite bool_decide_eq_true_2 by eauto. run_M.
      destruct a; try discriminate.
      destruct (py_int_mul 4 (p_d_proj p)); [| discriminate].
      intros [= <- <- _]. right. split; reflexivity.
    + rewrite bool_decide_eq_false_2 by (intros [? ?]; discriminate).
      unfold build_pair_attn. run_M.
      destruct (negb (truthy (p_attn p))); simpl;
        (destruct (py_int_mul 4 (p_d_proj p)); [| discriminate]);
        intros [= <- <- _]; left; split; reflexivity.
  - unfold build_pair_attn. run_M.
    destruct (negb (truthy (p_attn p))); simpl;
      (destruct (py_int_mul 4 (p_d_proj p)); [| discriminate]);
      intros [= <- <- _]; reflexivity.
Qed.

Lemma build_task_modules_shape task m d vocab emb args n m' n' :
  build_task_modules task m d vocab emb args n = Ok (m', n') →
  match category_of task with
  | Some CatSingle =>
      ∃ sc, m' = setattr m (task_name task ++ "_mdl") (ASingle sc)
  | Some CatPair =>
      ∃ pc m1, m' = setattr m1 (task_name task ++ "_mdl") (APair pc)
               ∧ pair_attn_step args m m1 pc
  | Some CatLM =>
      ∃ l, m' = setattr m (task_name task ++ "_hid2voc") (ALinear l)
  | Some CatSeqGen =>
      ∃ dec l, m' = setattr (setattr m (task_name task ++ "_decoder")
                               (ADecoder dec))
                      (task_name task ++ "_hid2voc") (ALinear l)
  | Some CatRanking => m' = m
  | None => False
  end.
Proof.
  unfold build_task_modules, category_of.
  destruct (get_task_specific_params_ok args (task_name task)) as (p & Hp & Hs).
  unfold bind at 1. unfold lift. rewrite Hp.
  destruct (isinstance task SingleClassificationTask).
  { unfold build_single_sentence_module, task_attr_n_classes. run_M.
    destruct (task_n_classes task); [| discriminate].
    intros [= <- _]. eauto. }
  destruct (is_pair_task task).
  { unfold bind at 1.
    destruct (build_pair_sentence_module task d m vocab p n)
      as [[[pc m1] k] |] eqn:E; [| discriminate].
    unfold ret. intros [= <- _]. exists pc, m1. split; [reflexivity |].
    eapply build_pair_sentence_module_step; eassumption. }
  destruct (isinstance task LanguageModelingTask).
  { unfold build_lm. run_M. intros [= <- _]. eauto. }
  destruct (isinstance task SequenceGenerationTask).
  { unfold build_decoder. run_M. intros [= <- _]. eauto. }
  destruct (isinstance task RankingTask).
  { unfold ret. intros [= <- _]. reflexivity. }
  unfold raise. discriminate.
Qed.

Lemma slot_ok_setattr suffix kind m s k a :
  slot_ok suffix kind m s →
  (k = s ++ suffix → kind a = true) →
  slot_ok suffix kind (setattr m k a) s.
Proof.
  intros (a0 & Ha0 & Hk) Hnew. unfold slot_ok, setattr.
  destruct (decide (k = s ++ suffix)) as [-> | Hne].
  - exists a. rewrite lookup_insert_eq. auto.
  - exists a0. rewrite lookup_insert_ne by exact Hne. auto.
Qed.

Ltac slot_step :=
  repeat (apply slot_ok_setattr;
          [| let H := fresh in
             intros H; first [ reflexivity | exfalso; last_char_clash ] ]);
  try assumption.

(** A task never removes a head, nor replaces it by a module of another
    kind. *)
Lemma build_task_modules_keeps_slots task m d vocab emb args n m' n' s :
  build_task_modules task m d vocab emb args n = Ok (m', n') →
  (slot_ok "_mdl" is_classifier_head m s → slot_ok "_mdl" is_classifier_head m' s)
  ∧ (slot_ok "_hid2voc" is_linear m s → slot_ok "_hid2voc" is_linear m' s)
  ∧ (slot_ok "_decoder" is_decoder m s → slot_ok "_decoder" is_decoder m' s).
Proof.
  intros H. apply build_task_modules_shape in H.
  destruct (category_of task) as [[| | | |] |]; [| | | | | contradiction].
  - destruct H as (sc & ->). repeat split; intros Hs; slot_step.
  - destruct H as (pc & m1 & -> & Hstep). unfold pair_attn_step in Hstep.
    destruct (truthyZ (args_shared_pair_attn args));
      [destruct Hstep as [[_ ->] | [_ ->]] | subst m1];
      repeat split; intros Hs; slot_step.
  - destruct H as (l & ->). repeat split; intros Hs; slot_step.
  - destruct H as (dec & l & ->). repeat split; intros Hs; slot_step.
  - subst m'. auto.
Qed.

Lemma head_attached_slots m task :
  head_attached m task ↔
  match category_of task with
  | Some CatSingle | Some CatPair =>
      slot_ok "_mdl" is_classifier_head m (task_name task)
  | Some CatLM => slot_ok "_hid2voc" is_linear m (task_name task)
  | Some CatSeqGen =>
      slot_ok "_decoder" is_decoder m (task_name task)
      ∧ slot_ok "_hid2voc" is_linear m (task_name task)
  | Some CatRanking => True
  | None => False
  end.
Proof.
  unfold head_attached, slot_ok.
  destruct (category_of task) as [[| | | |] |]; reflexivity.
Qed.

Lemma build_task_modules_keeps_heads task m d vocab emb args n m' n' t0 :
  build_task_modules task m d vocab emb args n = Ok (m', n') →
  head_attached m t0 → head_attached m' t0.
Proof.
  intros H.
  destruct (build_task_modules_keeps_slots _ _ _ _ _ _ _ _ _ (task_name t0) H)
    as (H1 & H2 & H3).
  rewrite !head_attached_slots.
  destruct (category_of t0) as [[| | | |] |]; try tauto.
Qed.

Lemma slot_ok_here suffix kind (m : Model) s a :
  kind a = true → slot_ok suffix kind (setattr m (s ++ suffix) a) s.
Proof.
  intros Hk. exists a. unfold setattr. rewrite lookup_insert_eq. auto.
Qed.

Lemma build_task_modules_attaches task m d vocab emb args n m' n' :
  build_task_modules task m d vocab emb args n = Ok (m', n') →
  head_attached m' task.
Proof.
  intros H. apply build_task_modules_shape in H.
  rewrite head_attached_slots.
  destruct (category_of task) as [[| | | |] |]; [| | | | | contradiction].
  - destruct H as (sc & ->). now apply slot_ok_here.
  - destruct H as (pc & m1 & -> & _). now apply slot_ok_here.
  - destruct H as (l & ->). now apply slot_ok_here.
  - destruct H as (dec & l & ->). split.
    + apply slot_ok_setattr; [now apply slot_ok_here |].
      intros Hk. exfalso. last_char_clash.
    + now apply slot_ok_here.
  - exact I.
Qed.

(** The members a task adds are its head names, and [pair_attn]. *)
Lemma build_task_modules_frame task m d vocab emb args n m' n' k :
  build_task_modules task m d vocab emb args n = Ok (m', n') →
  is_Some (m' !! k) →
  is_Some (m !! k) ∨ k = "pair_attn" ∨ k ∈ head_names task.
Proof.
  intros H. apply build_task_modules_shape in H.
  unfold head_names, setattr in *.
  destruct (category_of task) as [[| | | |] |]; [| | | | | contradiction].
  - destruct H as (sc & ->). rewrite lookup_insert.
    case_decide; [subst k; right; right; set_solver | auto].
  - destruct H as (pc & m1 & -> & Hstep). unfold pair_attn_step in Hstep.
    rewrite lookup_insert.
    case_decide; [subst k; right; right; set_solver |].
    destruct (truthyZ (args_shared_pair_attn args));
      [destruct Hstep as [[_ ->] | [_ ->]] | subst m1]; auto.
    unfold setattr. rewrite lookup_insert. case_decide; auto.
  - destruct H as (l & ->). rewrite lookup_insert.
    case_decide; [subst k; right; right; set_solver | auto].
  - destruct H as (dec & l & ->). rewrite !lookup_insert.
    repeat case_decide; subst; auto; right; right; set_solver.
  - subst m'. auto.
Qed.

(** C1.  When [build_modules] completes, every task of the list has its
    head attached under its name: a classifier head [<name>_mdl] for
    single and pair tasks, a linear [<name>_hid2voc] for language
    modeling, a decoder [<name>_decoder] and a linear [<name>_hid2voc] for
    sequence generation; every task has one of the five categories; and
    the only members added are these heads and [pair_attn], so that
    nothing is built for a Ranking task. *)
Theorem build_modules_attaches_heads tasks model d_sent vocab embedder args n
    model' n' :
  build_modules tasks model d_sent vocab embedder args n = Ok (model', n') →
  (∀ t, t ∈ tasks → head_attached model' t)
  ∧ (∀ t, t ∈ tasks → category_of t = Some CatRanking → head_names t = [])
  ∧ (∀ k, is_Some (model' !! k) →
          is_Some (model !! k) ∨ k = "pair_attn"
          ∨ ∃ t, t ∈ tasks ∧ k ∈ head_names t).
Proof.
  revert model n.
  induction tasks as [| task tasks IH]; intros model n H; simpl in H.
  - unfold ret in H. injection H as <- _.
    repeat split; intros; try set_solver; auto.
  - unfold bind in H.
    destruct (build_task_modules task model d_sent vocab embedder args n)
      as [[m1 k1] |] eqn:Hstep; [| discriminate].
    destruct (IH _ _ H) as (Hatt & _ & Hframe).
    split; [| split].
    + intros t Ht. apply elem_of_cons in Ht as [-> | Ht]; [| auto].
      clear IH Hatt Hframe.
      apply build_task_modules_attaches in Hstep.
      revert model' n' m1 k1 H Hstep.
      induction tasks as [| t' ts IHts]; intros model' n' m1 k1 H Hstep;
        simpl in H.
      * unfold ret in H. injection H as <- _. exact Hstep.
      * unfold bind in H.
        destruct (build_task_modules t' m1 d_sent vocab embedder args k1)
          as [[m2 k2] |] eqn:Hstep'; [| discriminate].
        eapply IHts; [exact H |].
        eapply build_task_modules_keeps_heads; eassumption.
    + intros t _ Hc. unfold head_names. rewrite Hc. reflexivity.
    + intros k Hk. destruct (Hframe k Hk) as [Hm1 | [-> | (t & Ht & Hin)]].
      * destruct (build_task_modules_frame _ _ _ _ _ _ _ _ _ k Hstep Hm1)
          as [? | [? | ?]]; auto.
        right. right. exists task.
        split; [apply elem_of_cons; auto | assumption].
      * auto.
      * right. right. exists t.
        split; [apply elem_of_cons; auto | assumption].
Qed.

Lemma build_modules_attaches_heads_witness :
  ∃ model' n',
    build_modules sample_tasks sample_model 256 sample_vocab sample_embedder
      sample_args 3%nat = Ok (model', n')
    ∧ head_attached model' task_mnli
    ∧ head_attached model' task_mt.
Proof.
  destruct (build_modules sample_tasks sample_model 256 sample_vocab
              sample_embedder sample_args 3%nat) as [[m k] |] eqn:E;
    [| vm_compute in E; discriminate E].
  exists m, k. split; [reflexivity |].
  destruct (build_modules_attaches_heads _ _ _ _ _ _ _ _ _ E) as [H _].
  split; apply H; unfold sample_tasks; repeat constructor.
Defined.

(** ** [build_modules]: shared pair attention *)

Lemma build_modules_app l1 l2 m d vocab emb args n m' n' :
  build_modules (l1 ++ l2) m d vocab emb args n = Ok (m', n') →
  ∃ m1 n1, build_modules l1 m d vocab emb args n = Ok (m1, n1)
           ∧ build_modules l2 m1 d vocab emb args n1 = Ok (m', n').
Proof.
  revert m n. induction l1 as [| t l1 IH]; intros m n H; simpl in *.
  - exists m, n. split; [reflexivity | exact H].
  - unfold bind in *.
    destruct (build_task_modules t m d vocab emb args n) as [[m1 k1] |];
      [| discriminate].
    apply IH in H. exact H.
Qed.

(** A property of the model that every task of the list maintains holds
    when the loop ends. *)
Lemma build_modules_maintains (P : Model → Prop) tasks m d vocab emb args n m' n' :
  (∀ task m0 n0 m1 n1,
      task ∈ tasks →
      build_task_modules task m0 d vocab emb args n0 = Ok (m1, n1) →
      P m0 → P m1) →
  build_modules tasks m d vocab emb args n = Ok (m', n') →
  P m → P m'.
Proof.
  revert m n. induction tasks as [| t ts IH]; intros m n Hstep H Hm; simpl in H.
  - unfold ret in H. injection H as <- _. exact Hm.
  - unfold bind in H.
    destruct (build_task_modules t m d vocab emb args n) as [[m1 k1] |] eqn:E;
      [| discriminate].
    eapply IH; [| exact H |].
    + intros task m0 n0 m2 n2 Hin. apply Hstep. apply elem_of_cons. auto.
    + eapply Hstep; [| exact E | exact Hm]. apply elem_of_cons. auto.
Qed.












(** For contrast: with sharing off the two pair heads get attention
    objects of their own (two identities), and the model has no
    [pair_attn]. *)
Example build_modules_unshared_pair_attn :
  ∃ model' n' pc1 pc2,
    build_modules sample_tasks sample_model 256 sample_vocab sample_embedder
      sample_args 3%nat = Ok (model', n')
    ∧ model' !! "pair_attn" = None
    ∧ model' !! "mnli_mdl" = Some (APair pc1)
    ∧ model' !! "rte_mdl" = Some (APair pc2)
    ∧ option_map ape_id (pc_attn pc1) = Some 8%nat
    ∧ option_map ape_id (pc_attn pc2) = Some 13%nat.
Proof.
  do 4 eexists. split; [vm_compute; reflexivity |].
  repeat split; vm_compute; reflexivity.
Qed.

(** ** [MultiTaskModel.forward]: dispatch *)

Lemma category_of_cases task :
  match category_of task with
  | Some CatSingle => isinstance task SingleClassificationTask = true
  | Some CatPair =>
      isinstance task SingleClassificationTask = false
      ∧ is_pair_task task = true
  | Some CatLM =>
      isinstance task SingleClassificationTask = false
      ∧ is_pair_task task = false
      ∧ isinstance task LanguageModelingTask = true
  | Some CatSeqGen =>
      isinstance task SingleClassificationTask = false
      ∧ is_pair_task task = false
      ∧ isinstance task LanguageModelingTask = false
      ∧ isinstance task SequenceGenerationTask = true
  | Some CatRanking =>
      isinstance task SingleClassificationTask = false
      ∧ is_pair_task task = false
      ∧ isinstance task LanguageModelingTask = false
      ∧ isinstance task SequenceGenerationTask = false
      ∧ isinstance task RankingTask = true
  | None =>
      isinstance task SingleClassificationTask = false
      ∧ is_pair_task task = false
      ∧ isinstance task LanguageModelingTask = false
      ∧ isinstance task SequenceGenerationTask = false
      ∧ isinstance task RankingTask = false
  end.
Proof.
  unfold category_of.
  destruct (isinstance task SingleClassificationTask); [reflexivity |].
  destruct (is_pair_task task); [auto |].
  destruct (isinstance task LanguageModelingTask); [auto |].
  destruct (isinstance task SequenceGenerationTask); [auto |].
  destruct (isinstance task RankingTask); auto 6.
Qed.

Lemma forward_dispatch {Scalar} (ops : Ops Scalar) model task batch :
  forward ops model task batch =
  match category_of task with
  | Some CatSingle => _single_sentence_forward ops model batch task
  | Some CatPair => _pair_sentence_forward ops model batch task
  | Some CatLM => _lm_forward ops model batch task
  | Some CatSeqGen => _seq_gen_forward ops model batch task
  | Some CatRanking => Raise NotImplementedError
  | None => Raise (ValueError "Task-specific components not found!")
  end.
Proof.
  unfold forward, category_of.
  destruct (isinstance task SingleClassificationTask); [reflexivity |].
  destruct (is_pair_task task); [reflexivity |].
  destruct (isinstance task LanguageModelingTask); [reflexivity |].
  destruct (isinstance task SequenceGenerationTask); [reflexivity |].
  destruct (isinstance task RankingTask); reflexivity.
Qed.

(** C6.  For a Ranking task [forward] raises [NotImplementedError],
    whatever the model and the batch; for a task of none of the recognized
    categories it raises the [ValueError] "Task-specific components not
    found!". *)
Theorem forward_ranking_and_unrecognized {Scalar} (ops : Ops Scalar) model task
    batch :
  (category_of task = Some CatRanking →
   forward ops model task batch = Raise NotImplementedError)
  ∧ (category_of task = None →
     forward ops model task batch
     = Raise (ValueError "Task-specific components not found!")).
Proof.
  rewrite forward_dispatch. split; intros ->; reflexivity.
Qed.

Lemma forward_ranking_and_unrecognized_witness :
  forward sample_ops sample_forward_model task_rank batch_sst
  = Raise NotImplementedError
  ∧ forward sample_ops sample_forward_model task_unknown batch_sst
    = Raise (ValueError "Task-specific components not found!").
Proof.
  split.
  - apply (forward_ranking_and_unrecognized sample_ops sample_forward_model
             task_rank batch_sst). reflexivity.
  - apply (forward_ranking_and_unrecognized sample_ops sample_forward_model
             task_unknown batch_sst). reflexivity.
Defined.

(** ** [forward]: the keys of the returned mapping *)

Ltac res_step H :=
  match type of H with
  | res_bind ?r _ = Ok _ =>
      let E := fresh "E" in
      destruct r eqn:E; unfold res_bind at 1 in H; [| discriminate H]
  | (let (_, _) := ?p in _) = Ok _ => destruct p
  | (match ?x with _ => _ end) = Ok _ =>
      let E := fresh "E" in destruct x eqn:E; try discriminate H
  end.


Ltac res_inv :=
  repeat match goal with
         | H : _ = Ok _ |- _ => res_step H
         end.



Lemma lm_forward_inv {Scalar} (ops : Ops Scalar) model batch task out calls :
  _lm_forward ops model batch task = Ok (out, calls) →
  ∃ logits targs loss pad,
    out = <["loss" := loss]> (<["logits" := logits]> ∅)
    ∧ lm_targets (is_bilm model) batch = Ok targs
    ∧ padding_index model = Some pad
    ∧ cross_entropy ops logits targs pad = Ok loss.
Proof.
  unfold _lm_forward, lm_targets, is_bilm, padding_index, model_sent_encoder,
    model_vocab, getattr.
  intros H. res_inv; simplify_eq.
  all: repeat match goal with
              | E : ?x = _ |- context [?x] => rewrite E
              end.
  all: unfold res_bind.
  all: repeat match goal with
              | E : ?x = _ |- context [?x] => rewrite E
              end.
  all: do 4 eexists; repeat split; eauto.
Qed.








(** ** The language-modeling loss and padding targets *)

Lemma length_rows_of {A} n c (data : list A) : length (rows_of n c data) = n.
Proof. unfold rows_of. rewrite length_map. apply length_seq. Qed.

(** Rows at ignored targets do not count. *)
Lemma counted_rows_agree {Scalar} pad (ts : list Z)
    (rows1 rows2 : list (list Scalar)) :
  length rows1 = length rows2 →
  (∀ i t, ts !! i = Some t → t ≠ pad → rows1 !! i = rows2 !! i) →
  counted_rows pad rows1 ts = counted_rows pad rows2 ts.
Proof.
  revert rows1 rows2.
  induction ts as [| t ts IH]; intros [| r1 rows1] [| r2 rows2] Hlen Hag;
    simpl in *; try reflexivity; try discriminate.
  assert (Htl : counted_rows pad rows1 ts = counted_rows pad rows2 ts).
  { apply IH; [congruence |]. intros i t' Hi Hne. apply (Hag (S i) t' Hi Hne). }
  destruct (t =? pad) eqn:E; [exact Htl |].
  apply Z.eqb_neq in E.
  specialize (Hag 0%nat t eq_refl E). simpl in Hag. injection Hag as ->.
  now rewrite Htl.
Qed.

Lemma logit_rows_length {Scalar} (t : Tensor Scalar) rows n c :
  logit_rows t = Some rows → size t = [n; c] → length rows = Z.to_nat n.
Proof.
  destruct t as [sh d | sh d]; simpl; [discriminate |].
  intros H ->. injection H as <-. apply length_rows_of.
Qed.

Lemma cross_entropy_agree {Scalar} (ops : Ops Scalar) pad targets logits1 logits2 :
  agree_off_padding pad targets logits1 logits2 →
  cross_entropy ops logits1 targets pad = cross_entropy ops logits2 targets pad.
Proof.
  intros (Hsz & ts & rows1 & rows2 & Hts & Hr1 & Hr2 & Hag).
  unfold cross_entropy. rewrite Hr1, Hr2, Hts.
  assert (Hlen : length rows1 = length rows2).
  { destruct logits1 as [sh1 d1 | sh1 d1]; [discriminate |].
    destruct sh1 as [| n [| c [| ? ?]]]; try discriminate.
    rewrite (logit_rows_length _ _ n c Hr1 eq_refl).
    simpl in Hsz. symmetry in Hsz.
    rewrite (logit_rows_length _ _ n c Hr2 Hsz). reflexivity. }
  rewrite Hlen.
  rewrite (counted_rows_agree pad ts rows1 rows2 Hlen Hag). reflexivity.
Qed.

(** C5.  Take two language-modeling forward calls that return, with the
    same targets and the same padding index.  If the logits they return
    agree on every row whose target is not the padding index (they differ
    at padding targets only), the two calls return the same loss. *)
Theorem lm_loss_ignores_padding_logits {Scalar} (ops : Ops Scalar)
    model1 model2 task1 task2 batch1 batch2 out1 out2 calls1 calls2
    targets pad logits1 logits2 :
  category_of task1 = Some CatLM → category_of task2 = Some CatLM →
  forward ops model1 task1 batch1 = Ok (out1, calls1) →
  forward ops model2 task2 batch2 = Ok (out2, calls2) →
  lm_targets (is_bilm model1) batch1 = Ok targets →
  lm_targets (is_bilm model2) batch2 = Ok targets →
  padding_index model1 = Some pad → padding_index model2 = Some pad →
  out1 !! "logits" = Some logits1 → out2 !! "logits" = Some logits2 →
  agree_off_padding pad targets logits1 logits2 →
  is_Some (out1 !! "loss") ∧ out1 !! "loss" = out2 !! "loss".
Proof.
  intros Hc1 Hc2 H1 H2 Ht1 Ht2 Hp1 Hp2 Hl1 Hl2 Hag.
  rewrite forward_dispatch, Hc1 in H1. rewrite forward_dispatch, Hc2 in H2.
  apply lm_forward_inv in H1 as (lg1 & tg1 & ls1 & p1 & -> & Ht1' & Hp1' & Hce1).
  apply lm_forward_inv in H2 as (lg2 & tg2 & ls2 & p2 & -> & Ht2' & Hp2' & Hce2).
  rewrite lookup_insert_ne in Hl1 by discriminate.
  rewrite lookup_insert_ne in Hl2 by discriminate.
  rewrite lookup_insert_eq in Hl1, Hl2.
  rewrite !lookup_insert_eq.
  injection Hl1 as ->. injection Hl2 as ->.
  assert (tg1 = targets) as -> by congruence.
  assert (tg2 = targets) as -> by congruence.
  assert (p1 = pad) as -> by congruence.
  assert (p2 = pad) as -> by congruence.
  split; [eauto |].
  rewrite (cross_entropy_agree ops pad targets logits1 logits2 Hag) in Hce1.
  congruence.
Qed.

(** Two runs that differ in the input token at the position whose target
    is the padding index: the logits differ in that row, the loss is the
    same. *)
Lemma lm_loss_ignores_padding_logits_witness :
  ∃ out1 out2 calls1 calls2,
    forward sample_ops sample_forward_model task_lm batch_lm = Ok (out1, calls1)
    ∧ forward sample_ops sample_forward_model task_lm batch_lm'
      = Ok (out2, calls2)
    ∧ out1 !! "logits" ≠ out2 !! "logits"
    ∧ out1 !! "loss" = out2 !! "loss".
Proof.
  destruct (forward sample_ops sample_forward_model task_lm batch_lm)
    as [[out1 calls1] |] eqn:E1; [| vm_compute in E1; discriminate E1].
  destruct (forward sample_ops sample_forward_model task_lm batch_lm')
    as [[out2 calls2] |] eqn:E2; [| vm_compute in E2; discriminate E2].
  exists out1, out2, calls1, calls2.
  split; [reflexivity |]. split; [reflexivity |].
  assert (Hl1 : out1 !! "logits"
                = Some (FloatT [3; 3] [11; 22; 33; 13; 26; 39; 15; 30; 45])).
  { vm_compute in E1. injection E1 as <- _. vm_compute. reflexivity. }
  assert (Hl2 : out2 !! "logits"
                = Some (FloatT [3; 3] [11; 22; 33; 19; 38; 57; 15; 30; 45])).
  { vm_compute in E2. injection E2 as <- _. vm_compute. reflexivity. }
  split; [rewrite Hl1, Hl2; discriminate |].
  apply (lm_loss_ignores_padding_logits sample_ops
           sample_forward_model sample_forward_model task_lm task_lm
           batch_lm batch_lm' out1 out2 calls1 calls2
           (IntT [3] [1; 0; 2]) 0
           (FloatT [3; 3] [11; 22; 33; 13; 26; 39; 15; 30; 45])
           (FloatT [3; 3] [11; 22; 33; 19; 38; 57; 15; 30; 45]));
    try reflexivity; try assumption.
  split; [reflexivity |].
  exists [1; 0; 2], [[11; 22; 33]; [13; 26; 39]; [15; 30; 45]],
    [[11; 22; 33]; [19; 38; 57]; [15; 30; 45]].
  repeat split.
  intros [| [| [| i]]] t Hi Hne; simpl in Hi; try discriminate;
    injection Hi as <-; try reflexivity.
  contradiction.
Defined.

(** * Further properties of the builders *)

(** ** [build_model]: the encoder with a language-modeling task *)

Lemma count_lm_tasks_nonneg tasks : 0 <= count_lm_tasks tasks.
Proof.
  induction tasks as [| t ts IH]; simpl; [lia |].
  destruct (isinstance t LanguageModelingTask); simpl; lia.
Qed.

Lemma count_lm_tasks_some tasks :
  Exists (fun t => isinstance t LanguageModelingTask = true) tasks →
  truthyZ (count_lm_tasks tasks) = true.
Proof.
  intros H. unfold truthyZ. apply negb_true_iff, Z.eqb_neq.
  induction H as [t ts Ht | t ts _ IH]; simpl.
  - rewrite Ht. pose proof (count_lm_tasks_nonneg ts). simpl. lia.
  - pose proof (count_lm_tasks_nonneg ts).
    destruct (isinstance t LanguageModelingTask); simpl; lia.
Qed.

(** X1.  With a language-modeling task among the tasks and an rnn or
    transformer encoder, the encoder is built and [d_sent] is
    [d_hid + skip_embs * d_emb] whatever [bidirectional] is; the encoder is
    a [BiLMEncoder] exactly when [bidirectional] is on. *)
Theorem build_model_encoder_lm args vocab tasks d_emb embedder cove_emb n :
  Exists (fun t => isinstance t LanguageModelingTask = true) tasks →
  args_sent_enc args = "rnn" ∨ args_sent_enc args = "transformer" →
  ∃ enc n',
    build_model_encoder args vocab tasks d_emb embedder cove_emb n
    = Ok (Some enc, args_d_hid args + args_skip_embs args * d_emb, n')
    ∧ (truthyZ (args_bidirectional args) = true → ∃ b, enc = EncBiLM b)
    ∧ (truthyZ (args_bidirectional args) = false → ∃ s, enc = EncSentence s).
Proof.
  intros Hlm Henc. unfold build_model_encoder.
  rewrite (count_lm_tasks_some tasks Hlm). unfold bind at 1.
  destruct (truthyZ (args_bidirectional args)) eqn:Hb;
    destruct Henc as [-> | ->]; simpl;
    unfold lstm_from_rnn_params, masked_tfm_from_params; run_M;
    do 2 eexists; (split; [reflexivity |]);
    split; intros; try discriminate; eauto.
Qed.

Lemma build_model_encoder_lm_witness :
  ∃ enc n',
    build_model_encoder sample_args sample_vocab [task_sst; task_lm] 300
      sample_embedder None 2%nat
    = Ok (Some enc, 128, n')
    ∧ ∃ b, enc = EncBiLM b.
Proof.
  destruct (build_model_encoder_lm sample_args sample_vocab [task_sst; task_lm]
              300 sample_embedder None 2%nat)
    as (enc & n' & Heq & Hbi & _).
  - apply Exists_cons_tl. apply Exists_cons_hd. reflexivity.
  - left. reflexivity.
  - exists enc, n'. split; [exact Heq |]. apply Hbi. reflexivity.
Defined.

(** X2.  An encoder type the branch at hand does not know leaves a local
    unassigned.  With a language-modeling task, a type other than rnn and
    transformer (bow included) makes [build_model] raise on [fwd]; without
    one, a type other than bow, rnn and transformer makes it raise on
    [sent_encoder], once the embeddings are built. *)
Theorem build_model_unknown_encoder env args vocab pre tasks n d_emb embedder
    cove_emb n1 :
  build_embeddings env args vocab pre n = Ok (d_emb, embedder, cove_emb, n1) →
  (Exists (fun t => isinstance t LanguageModelingTask = true) tasks →
   args_sent_enc args ≠ "rnn" → args_sent_enc args ≠ "transformer" →
   build_model env args vocab pre tasks n = Raise (UnboundLocalError "fwd"))
  ∧ (Forall (fun t => isinstance t LanguageModelingTask = false) tasks →
     spec_encoder_width args d_emb = None →
     build_model env args vocab pre tasks n
     = Raise (UnboundLocalError "sent_encoder")).
Proof.
  intros Hemb. split.
  - intros Hlm Hr Ht.
    unfold build_model, bind at 1. rewrite Hemb.
    unfold bind at 1, build_model_encoder.
    rewrite (count_lm_tasks_some tasks Hlm).
    apply String.eqb_neq in Hr, Ht. rewrite Hr, Ht.
    destruct (truthyZ (args_bidirectional args)); reflexivity.
  - intros Hlm Hw.
    unfold build_model, bind at 1. rewrite Hemb.
    unfold bind at 1, build_model_encoder.
    rewrite (count_lm_tasks_none tasks Hlm).
    unfold spec_encoder_width in Hw. simpl.
    destruct (String.eqb (args_sent_enc args) "bow"); [discriminate |].
    destruct (String.eqb (args_sent_enc args) "rnn"); [discriminate |].
    destruct (String.eqb (args_sent_enc args) "transformer"); [discriminate |].
    reflexivity.
Qed.

Lemma build_model_unknown_encoder_witness :
  build_model env_with_cove (set_encoder sample_args "bow" 1 0) sample_vocab None
    [task_lm] 0%nat
  = Raise (UnboundLocalError "fwd")
  ∧ build_model env_with_cove (set_encoder sample_args "cnn" 1 0) sample_vocab
      None [task_sst] 0%nat
    = Raise (UnboundLocalError "sent_encoder").
Proof.
  split.
  - apply (proj1 (build_model_unknown_encoder env_with_cove
                    (set_encoder sample_args "bow" 1 0) sample_vocab None
                    [task_lm] 0%nat 300 sample_embedder None 2%nat eq_refl)).
    + apply Exists_cons_hd. reflexivity.
    + discriminate.
    + discriminate.
  - apply (proj2 (build_model_unknown_encoder env_with_cove
                    (set_encoder sample_args "cnn" 1 0) sample_vocab None
                    [task_sst] 0%nat 300 sample_embedder None 2%nat eq_refl)).
    + repeat constructor.
    + reflexivity.
Defined.

(** ** [build_modules]: what it leaves alone *)

Lemma head_names_shape task k :
  k ∈ head_names task →
  k = task_name task ++ "_mdl" ∨ k = task_name task ++ "_hid2voc"
  ∨ k = task_name task ++ "_decoder".
Proof.
  unfold head_names.
  destruct (category_of task) as [[| | | |] |]; intros H;
    repeat (apply elem_of_cons in H as [H | H]; [auto |]);
    apply elem_of_nil in H; contradiction.
Qed.

Lemma build_task_modules_untouched task m d vocab emb args n m' n' k :
  build_task_modules task m d vocab emb args n = Ok (m', n') →
  k ≠ "pair_attn" → k ∉ head_names task →
  m' !! k = m !! k.
Proof.
  intros H Hpa Hk. apply build_task_modules_shape in H.
  unfold head_names, setattr in *.
  destruct (category_of task) as [[| | | |] |]; [| | | | | contradiction].
  - destruct H as (sc & ->). apply lookup_insert_ne.
    intros <-. apply Hk. apply elem_of_cons. auto.
  - destruct H as (pc & m1 & -> & Hstep). unfold pair_attn_step in Hstep.
    rewrite lookup_insert_ne
      by (intros <-; apply Hk; apply elem_of_cons; auto).
    destruct (truthyZ (args_shared_pair_attn args));
      [destruct Hstep as [[_ ->] | [_ ->]] | subst m1]; try reflexivity.
    unfold setattr. apply lookup_insert_ne. congruence.
  - destruct H as (l & ->). apply lookup_insert_ne.
    intros <-. apply Hk. apply elem_of_cons. auto.
  - destruct H as (dec & l & ->).
    rewrite lookup_insert_ne
      by (intros <-; apply Hk; apply elem_of_cons; right;
          apply elem_of_cons; auto).
    apply lookup_insert_ne. intros <-. apply Hk. apply elem_of_cons. auto.
  - subst m'. reflexivity.
Qed.

Lemma build_modules_frame_values tasks model d_sent vocab embedder args n model'
    n' k :
  build_modules tasks model d_sent vocab embedder args n = Ok (model', n') →
  k ≠ "pair_attn" →
  (∀ t, t ∈ tasks → k ∉ head_names t) →
  model' !! k = model !! k.
Proof.
  intros H Hpa Hk.
  apply (build_modules_maintains (fun m => m !! k = model !! k)
           tasks model d_sent vocab embedder args n model' n');
    [| exact H | reflexivity].
  intros task m0 n0 m1 n1 Hin Hstep Hm0. rewrite <- Hm0.
  eapply build_task_modules_untouched; [exact Hstep | exact Hpa |].
  apply Hk. exact Hin.
Qed.

(** X3.  [build_modules] changes no member of the model other than the
    head names of its tasks and [pair_attn]: every other member holds
    afterwards what it held before. *)
Theorem build_modules_untouched tasks model d_sent vocab embedder args n model'
    n' k :
  build_modules tasks model d_sent vocab embedder args n = Ok (model', n') →
  k ≠ "pair_attn" →
  (∀ t, t ∈ tasks → k ∉ head_names t) →
  model' !! k = model !! k.
Proof. apply build_modules_frame_values. Qed.

Lemma build_modules_untouched_witness :
  ∃ model' n',
    build_modules sample_tasks sample_model 256 sample_vocab sample_embedder
      sample_args 3%nat = Ok (model', n')
    ∧ model' !! "vocab" = Some (AVocab sample_vocab).
Proof.
  destruct (build_modules sample_tasks sample_model 256 sample_vocab
              sample_embedder sample_args 3%nat) as [[m k] |] eqn:E;
    [| vm_compute in E; discriminate E].
  exists m, k. split; [reflexivity |].
  rewrite (build_modules_untouched _ _ _ _ _ _ _ _ _ "vocab" E).
  - reflexivity.
  - discriminate.
  - intros t Ht Hin. apply head_names_shape in Hin.
    destruct Hin as [Hin | [Hin | Hin]]; last_char_clash.
Defined.

(** ** [build_model]: the container it returns *)








(** ** [build_modules]: completion and failure *)

Lemma get_task_specific_params_d_proj args task :
  ∃ p, get_task_specific_params args task = Ok p
       ∧ p_shared_pair_attn p = VInt (args_shared_pair_attn args)
       ∧ spec_task_attr args task "d_proj" = Some (p_d_proj p).
Proof.
  unfold get_task_specific_params.
  destruct (get_task_attr_spec args task "classifier" _ eq_refl) as (c & -> & _).
  destruct (get_task_attr_spec args task "classifier_hid_dim" _ eq_refl)
    as (h & -> & _).
  destruct (get_task_attr_spec args task "d_proj" _ eq_refl) as (d & -> & Hd).
  simpl.
  destruct (truthyZ (args_shared_pair_attn args)); simpl.
  - eauto.
  - destruct (get_task_attr_spec args task "pair_attn" _ eq_refl)
      as (a & -> & _).
    destruct (get_task_attr_spec args task "classifier_dropout" _ eq_refl)
      as (dr & -> & _).
    simpl. eauto.
Qed.







(** X6.  The loop stops at the first task it cannot handle: after the
    tasks before it have been built, a task of no recognized category
    raises [ValueError] with its name, and a single-sentence task without
    [n_classes] raises [AttributeError]; no later task is looked at. *)
Theorem build_modules_first_failure l1 t l2 model d_sent vocab embedder args n
    m1 n1 :
  build_modules l1 model d_sent vocab embedder args n = Ok (m1, n1) →
  (category_of t = None →
   build_modules (l1 ++ t :: l2) model d_sent vocab embedder args n
   = Raise (ValueError ("Module not found for " ++ task_name t)))
  ∧ (category_of t = Some CatSingle → task_n_classes t = None →
     build_modules (l1 ++ t :: l2) model d_sent vocab embedder args n
     = Raise (AttributeError "n_classes")).
Proof.
  intros H1.
  assert (Happ : ∀ e,
             build_task_modules t m1 d_sent vocab embedder args n1 = Raise e →
             build_modules (l1 ++ t :: l2) model d_sent vocab embedder args n
             = Raise e).
  { intros e He. clear -H1 He. revert model n H1.
    induction l1 as [| t' l1 IH]; intros model n H1; simpl in *.
    - unfold ret in H1. injection H1 as -> ->. unfold bind. now rewrite He.
    - unfold bind in *.
      destruct (build_task_modules t' model d_sent vocab embedder args n)
        as [[m2 n2] |]; [| discriminate].
      apply IH. exact H1. }
  pose proof (category_of_cases t) as Hc.
  destruct (get_task_specific_params_ok args (task_name t)) as (p & Hp & _).
  split.
  - intros Hnone. apply Happ. rewrite Hnone in Hc.
    destruct Hc as (Hs & Hpr & Hl & Hg & Hr).
    unfold build_task_modules, bind at 1, lift. rewrite Hp, Hs, Hpr, Hl, Hg, Hr.
    reflexivity.
  - intros Hsingle Hn. apply Happ. rewrite Hsingle in Hc.
    unfold build_task_modules, bind at 1, lift. rewrite Hp, Hc.
    unfold build_single_sentence_module, task_attr_n_classes. rewrite Hn.
    reflexivity.
Qed.

Lemma build_modules_first_failure_witness :
  build_modules ([task_sst; task_mnli] ++ task_unknown :: [task_rte]) sample_model
    256 sample_vocab sample_embedder sample_args 3%nat
  = Raise (ValueError "Module not found for misc").
Proof.
  destruct (build_modules [task_sst; task_mnli] sample_model 256 sample_vocab
              sample_embedder sample_args 3%nat) as [[m k] |] eqn:E;
    [| vm_compute in E; discriminate E].
  apply (proj1 (build_modules_first_failure [task_sst; task_mnli] task_unknown
                  [task_rte] sample_model 256 sample_vocab sample_embedder
                  sample_args 3%nat m k E)).
  reflexivity.
Defined.

(** ** [build_modules]: the head of a task is the one built for it *)

Lemma build_task_modules_builds task m d vocab emb args n m' n' :
  build_task_modules task m d vocab emb args n = Ok (m', n') →
  head_built_for args d m' task.
Proof.
  pose proof (category_of_cases task) as Hc.
  destruct (get_task_specific_params_d_proj args (task_name task))
    as (p & Hp & _ & Hd).
  unfold build_task_modules, bind at 1, lift, head_built_for. rewrite Hp.
  destruct (category_of task) as [[| | | |] |].
  - rewrite Hc. unfold build_single_sentence_module, task_attr_n_classes.
    destruct (task_n_classes task) as [k |]; run_M; [| discriminate].
    intros [= <- _]. eexists. unfold setattr. rewrite lookup_insert_eq.
    split; [reflexivity |]. simpl. auto.
  - destruct Hc as (-> & ->). unfold bind at 1.
    destruct (build_pair_sentence_module task d m vocab p n)
      as [[[pc m1] k] |] eqn:E; [| discriminate].
    unfold ret. intros [= <- _]. exists pc. unfold setattr.
    rewrite lookup_insert_eq. split; [reflexivity |].
    clear -E Hd. unfold build_pair_sentence_module in E.
    unfold bind at 1, fresh in E. unfold bind at 1 in E.
    match type of E with
    | match ?x with _ => _ end = _ =>
        destruct x as [[[pa m2] k2] |]; [| discriminate]
    end.
    run_M. destruct (py_int_mul 4 (p_d_proj p)) as [r |] eqn:Hr;
      [| discriminate].
    injection E as <- _ _. simpl. auto.
  - destruct Hc as (-> & -> & ->). unfold build_lm. run_M.
    intros [= <- _]. eexists. unfold setattr. rewrite lookup_insert_eq.
    split; [reflexivity |]. simpl. auto.
  - destruct Hc as (-> & -> & -> & ->). unfold build_decoder. run_M.
    intros [= <- _]. do 2 eexists. unfold setattr.
    rewrite lookup_insert_ne by apply hid2voc_not_decoder.
    rewrite !lookup_insert_eq. simpl. auto 6.
  - intros _. exact I.
  - destruct Hc as (-> & -> & -> & -> & ->). unfold raise. discriminate.
Qed.

Lemma head_names_disjoint t t' k :
  task_name t' ≠ task_name t → k ∈ head_names t → k ∉ head_names t'.
Proof.
  intros Hne Hk Hk'.
  apply head_names_shape in Hk, Hk'.
  destruct Hk as [-> | [-> | ->]], Hk' as [H | [H | H]];
    try last_char_clash;
    apply Hne; symmetry; eapply string_app_inv_tail; exact H.
Qed.

Lemma head_name_not_pair_attn t k : k ∈ head_names t → k ≠ "pair_attn".
Proof.
  intros Hk. apply head_names_shape in Hk as [-> | [-> | ->]];
    [apply mdl_not_pair_attn | apply hid2voc_not_pair_attn
    | apply decoder_not_pair_attn].
Qed.

Lemma head_built_for_ext args d (m m' : Model) t :
  (∀ k, k ∈ head_names t → m' !! k = m !! k) →
  head_built_for args d m t → head_built_for args d m' t.
Proof.
  unfold head_built_for, head_names.
  destruct (category_of t) as [[| | | |] |]; intros Hk H; try exact H.
  - destruct H as (sc & H & Hr). exists sc. split; [| exact Hr].
    rewrite Hk; [exact H | apply elem_of_cons; auto].
  - destruct H as (pc & H & Hr). exists pc. split; [| exact Hr].
    rewrite Hk; [exact H | apply elem_of_cons; auto].
  - destruct H as (lin & H & Hr). exists lin. split; [| exact Hr].
    rewrite Hk; [exact H | apply elem_of_cons; auto].
  - destruct H as (dec & lin & H1 & H2 & Hr). exists dec, lin.
    split; [| split; [| exact Hr]].
    + rewrite Hk; [exact H1 | apply elem_of_cons; auto].
    + rewrite Hk; [exact H2 |].
      apply elem_of_cons. right. apply elem_of_cons. auto.
Qed.

(** X7.  When [build_modules] completes, a task whose name no later task
    of the list bears has, under its name, the head built for it: the kind
    of module [forward] calls for its category, with input width [d_sent],
    the task's own resolved [d_proj] (times four into the pair
    classifier), its [n_classes] (1 for a pair task without), and for
    language modeling and generation the vocabulary size
    [max_word_v_size]. *)
Theorem build_modules_builds_heads l1 t l2 model d_sent vocab embedder args n
    model' n' :
  build_modules (l1 ++ t :: l2) model d_sent vocab embedder args n
  = Ok (model', n') →
  (∀ t', t' ∈ l2 → task_name t' ≠ task_name t) →
  head_built_for args d_sent model' t.
Proof.
  intros H Hnames.
  apply build_modules_app in H as (m1 & n1 & _ & H2). simpl in H2.
  unfold bind in H2.
  destruct (build_task_modules t m1 d_sent vocab embedder args n1)
    as [[m2 n2] |] eqn:E; [| discriminate].
  apply (build_modules_maintains (fun m => head_built_for args d_sent m t)
           l2 m2 d_sent vocab embedder args n2 model' n'); [| exact H2 |].
  - intros task m0 n0 m3 n3 Hin Hstep. apply head_built_for_ext.
    intros k Hk.
    eapply build_task_modules_untouched; [exact Hstep | |].
    + eapply head_name_not_pair_attn; exact Hk.
    + eapply head_names_disjoint; [| exact Hk]. apply Hnames. exact Hin.
  - eapply build_task_modules_builds; exact E.
Qed.

Lemma build_modules_builds_heads_witness :
  ∃ model' n' lin,
    build_modules sample_tasks sample_model 256 sample_vocab sample_embedder
      sample_args 3%nat = Ok (model', n')
    ∧ model' !! "wiki_hid2voc" = Some (ALinear lin)
    ∧ lin_in_features lin = 256 ∧ lin_out_features lin = 30000.
Proof.
  destruct (build_modules sample_tasks sample_model 256 sample_vocab
              sample_embedder sample_args 3%nat) as [[m k] |] eqn:E;
    [| vm_compute in E; discriminate E].
  pose proof (build_modules_builds_heads [task_sst; task_mnli; task_rte] task_lm
                [task_mt; task_rank] sample_model 256 sample_vocab
                sample_embedder sample_args 3%nat m k E) as H.
  destruct H as (lin & Hl & Hin & Hout).
  { intros t' Ht'.
    repeat (apply elem_of_cons in Ht' as [-> | Ht']; [discriminate |]).
    apply elem_of_nil in Ht'. contradiction. }
  exists m, k, lin. split; [reflexivity |]. repeat split; assumption.
Defined.

(** * Further properties of the forward passes *)

(** ** Scorer calls *)

Lemma call_scorer_opt_inv {Scalar} s (args : list (@ScoreArg Scalar)) c :
  call_scorer_opt s args = Ok c → s = Some (call_scorer c).
Proof.
  unfold call_scorer_opt. destruct s; [| discriminate].
  intros [= <-]. reflexivity.
Qed.

Ltac scorer_facts :=
  repeat match goal with
         | H : call_scorer_opt _ _ = Ok _ |- _ =>
             apply call_scorer_opt_inv in H
         end.

Lemma single_forward_calls {Scalar} (ops : Ops Scalar) model batch task out calls :
  _single_sentence_forward ops model batch task = Ok (out, calls) →
  (batch !! "labels" = None → calls = [])
  ∧ (is_Some (batch !! "labels") →
     (1 <= length calls <= 2)%nat
     ∧ ∀ c, c ∈ calls →
            task_scorer1 task = Some (call_scorer c)
            ∨ task_scorer2 task = Some (call_scorer c)).
Proof.
  unfold _single_sentence_forward. intros H.
  res_inv; simplify_eq;
    match goal with
    | Hb : bool_decide _ = true |- _ =>
        apply bool_decide_eq_true_1 in Hb;
        split; [intros Hn; rewrite Hn in Hb; destruct Hb; discriminate |];
        intros _; split; [simpl; lia |];
        intros c Hc; scorer_facts;
        repeat (apply elem_of_cons in Hc as [-> | Hc]; [auto |]);
        apply elem_of_nil in Hc; contradiction
    | Hb : bool_decide _ = false |- _ =>
        apply bool_decide_eq_false_1 in Hb;
        split; [reflexivity | intros Hs; contradiction]
    end.
Qed.

Lemma pair_forward_calls {Scalar} (ops : Ops Scalar) model batch task out calls :
  _pair_sentence_forward ops model batch task = Ok (out, calls) →
  (batch !! "labels" = None → calls = [])
  ∧ (is_Some (batch !! "labels") →
     (1 <= length calls <= 2)%nat
     ∧ ∀ c, c ∈ calls →
            task_scorer1 task = Some (call_scorer c)
            ∨ task_scorer2 task = Some (call_scorer c)).
Proof.
  unfold _pair_sentence_forward. intros H.
  res_inv; simplify_eq;
    match goal with
    | Hb : bool_decide _ = true |- _ =>
        apply bool_decide_eq_true_1 in Hb;
        split; [intros Hn; rewrite Hn in Hb; destruct Hb; discriminate |];
        intros _; split; [simpl; lia |];
        intros c Hc; scorer_facts;
        repeat (apply elem_of_cons in Hc as [-> | Hc]; [auto |]);
        apply elem_of_nil in Hc; contradiction
    | Hb : bool_decide _ = false |- _ =>
        apply bool_decide_eq_false_1 in Hb;
        split; [reflexivity | intros Hs; contradiction]
    end.
Qed.

(** X8.  For a single or pair task, a forward call that returns has
    called a scorer only if the batch has "labels": without labels no
    scorer is called; with labels one or two calls are made, each to the
    task's own primary or secondary scorer. *)
Theorem forward_scores_only_with_labels {Scalar} (ops : Ops Scalar) model task
    batch out calls :
  category_of task = Some CatSingle ∨ category_of task = Some CatPair →
  forward ops model task batch = Ok (out, calls) →
  (batch !! "labels" = None → calls = [])
  ∧ (is_Some (batch !! "labels") →
     (1 <= length calls <= 2)%nat
     ∧ ∀ c, c ∈ calls →
            task_scorer1 task = Some (call_scorer c)
            ∨ task_scorer2 task = Some (call_scorer c)).
Proof.
  rewrite forward_dispatch. intros [-> | ->] H.
  - eapply single_forward_calls; exact H.
  - eapply pair_forward_calls; exact H.
Qed.

Lemma forward_scores_only_with_labels_witness :
  ∃ out calls,
    forward sample_ops sample_forward_model task_sst batch_sst_labelled
    = Ok (out, calls)
    ∧ (1 <= length calls <= 2)%nat.
Proof.
  destruct (forward sample_ops sample_forward_model task_sst batch_sst_labelled)
    as [[out calls] |] eqn:E; [| vm_compute in E; discriminate E].
  exists out, calls. split; [reflexivity |].
  destruct (forward_scores_only_with_labels sample_ops sample_forward_model
              task_sst batch_sst_labelled out calls (or_introl eq_refl) E)
    as [_ H].
  apply H. vm_compute. eauto.
Defined.

(** X9.  A language-modeling forward call that returns has made exactly
    one scorer call: to the task's primary scorer, with the value of the
    returned loss; a task without primary scorer cannot return. *)
Theorem lm_forward_reports_loss {Scalar} (ops : Ops Scalar) model task batch out
    calls :
  category_of task = Some CatLM →
  forward ops model task batch = Ok (out, calls) →
  ∃ s loss x,
    task_scorer1 task = Some s
    ∧ out !! "loss" = Some loss
    ∧ item loss = Ok x
    ∧ calls = [{| call_scorer := s; call_args := [ArgScalar x] |}].
Proof.
  rewrite forward_dispatch. intros -> H. unfold _lm_forward in H.
  res_inv; simplify_eq;
    match goal with
    | Hc : call_scorer_opt (task_scorer1 task) _ = Ok ?c |- _ =>
        unfold call_scorer_opt in Hc;
        destruct (task_scorer1 task) as [s |]; [| discriminate];
        injection Hc as <-; exists s
    end;
    do 2 eexists; (split; [reflexivity |]);
    rewrite lookup_insert_eq; (split; [reflexivity |]);
    (split; [eassumption | reflexivity]).
Qed.

Lemma lm_forward_reports_loss_witness :
  ∃ out,
    forward sample_ops sample_forward_model task_lm batch_lm
    = Ok (out, [{| call_scorer := {| scorer_id := 110 |};
                   call_args := [ArgScalar (-34)] |}]).
Proof.
  destruct (forward sample_ops sample_forward_model task_lm batch_lm)
    as [[out calls] |] eqn:E; [| vm_compute in E; discriminate E].
  destruct (lm_forward_reports_loss sample_ops sample_forward_model task_lm
              batch_lm out calls eq_refl E) as (s & loss & x & Hs & Hl & Hx & ->).
  exists out. injection Hs as <-.
  assert (Hloss : out !! "loss" = Some (FloatT [] [-34])).
  { vm_compute in E. injection E as <- _. vm_compute. reflexivity. }
  rewrite Hloss in Hl. injection Hl as <-.
  injection Hx as <-. reflexivity.
Defined.

(** ** Missing batch fields and heads *)

(** X10.  With the shared encoder in place, a single or pair forward call
    on a batch without "input1" raises [KeyError]; a pair call on a batch
    without "input2" raises [KeyError] once the first sentence is encoded;
    and a single call whose task has no head [<name>_mdl] on the model
    raises [AttributeError] once the sentence is encoded. *)
Theorem forward_missing_lookups {Scalar} (ops : Ops Scalar) model task batch enc :
  model !! "sent_encoder" = Some (AEncoder enc) →
  (category_of task = Some CatSingle ∨ category_of task = Some CatPair →
   batch !! "input1" = None →
   forward ops model task batch = Raise (KeyError "input1"))
  ∧ (category_of task = Some CatPair →
     ∀ input1 sent mask,
       batch !! "input1" = Some input1 →
       encoder_call ops enc input1 = Ok (sent, mask) →
       batch !! "input2" = None →
       forward ops model task batch = Raise (KeyError "input2"))
  ∧ (category_of task = Some CatSingle →
     ∀ input1 sent mask,
       batch !! "input1" = Some input1 →
       encoder_call ops enc input1 = Ok (sent, mask) →
       model !! (task_name task ++ "_mdl") = None →
       forward ops model task batch
       = Raise (AttributeError (task_name task ++ "_mdl"))).
Proof.
  intros Henc. rewrite forward_dispatch. split; [| split].
  - intros [-> | ->] Hin;
      unfold _single_sentence_forward, _pair_sentence_forward,
        model_sent_encoder, getattr, batch_get;
      rewrite Henc, Hin; reflexivity.
  - intros -> input1 sent mask Hin Hcall Hin2.
    unfold _pair_sentence_forward, model_sent_encoder, getattr, batch_get.
    rewrite Henc, Hin. cbn [res_bind]. rewrite Hcall. cbn [res_bind].
    rewrite Hin2. reflexivity.
  - intros -> input1 sent mask Hin Hcall Hhead.
    unfold _single_sentence_forward, model_sent_encoder, getattr, batch_get.
    rewrite Henc, Hin. cbn [res_bind]. rewrite Hcall. cbn [res_bind].
    rewrite Hhead. reflexivity.
Qed.

Lemma forward_missing_lookups_witness :
  forward sample_ops sample_forward_model task_sst batch_mt
  = Raise (KeyError "input1")
  ∧ forward sample_ops sample_forward_model task_cola batch_sst
    = Raise (AttributeError "cola_mdl").
Proof.
  split.
  - apply (proj1 (forward_missing_lookups sample_ops sample_forward_model
                    task_sst batch_mt sample_encoder eq_refl));
      [left |]; reflexivity.
  - apply (proj2 (proj2 (forward_missing_lookups sample_ops sample_forward_model
                           task_cola batch_sst sample_encoder eq_refl))
             eq_refl (text_field 2 2 [5; 6; 7; 0])
             (FloatT [2; 2; 2] [5; 6; 6; 7; 7; 8; 0; 1])
             (FloatT [2; 2; 1] [1; 1; 1; 0]));
      reflexivity.
Defined.

(** ** The size of the language-modeling logits *)

Lemma view_rows_size {Scalar} (t r : Tensor Scalar) n :
  view_rows t n = Ok r → size r = [n; numel t / n].
Proof.
  unfold view_rows. destruct (_ && _); [| discriminate].
  intros [= <-]. destruct t; reflexivity.
Qed.

Lemma cat0_size {Scalar} (a b r : Tensor Scalar) n1 c1 n2 c2 :
  cat0 a b = Ok r → size a = [n1; c1] → size b = [n2; c2] →
  size r = [n1 + n2; c1].
Proof.
  unfold cat0.
  destruct a as [sa da | sa da], b as [sb db | sb db]; simpl;
    intros H -> ->; try discriminate;
    (destruct (c1 =? c2); [| discriminate]); injection H as <-; reflexivity.
Qed.

(** X11.  The logits a language-modeling forward call returns have one row
    per input position, [b_size * seq_len] rows for a batch of size
    [(b_size, seq_len)], and twice as many with a [BiLMEncoder] (the
    forward rows followed by the backward rows). *)
Theorem lm_forward_logits_rows {Scalar} (ops : Ops Scalar) model task batch out
    calls :
  category_of task = Some CatLM →
  forward ops model task batch = Ok (out, calls) →
  ∃ input words b_size seq_len logits c,
    batch !! "input" = Some input
    ∧ field_get input "words" = Ok words
    ∧ size words = [b_size; seq_len]
    ∧ out !! "logits" = Some logits
    ∧ size logits
      = [(if is_bilm model then 2 else 1) * (b_size * seq_len); c].
Proof.
  rewrite forward_dispatch. intros -> H.
  unfold _lm_forward, model_sent_encoder, getattr, batch_get, size2, is_bilm
    in *.
  res_inv; simplify_eq;
    repeat match goal with
           | Hv : view_rows _ _ = Ok _ |- _ => apply view_rows_size in Hv
           end;
    repeat match goal with
           | E : ?x = _ |- context [?x] => rewrite E
           end;
    do 6 eexists;
    (split; [reflexivity |]); (split; [eassumption |]);
    (split; [eassumption |]);
    rewrite lookup_insert_ne by discriminate; rewrite lookup_insert_eq;
    (split; [reflexivity |]).
  all: try match goal with
           | Hc : cat0 ?a ?b = Ok ?r, Ha : size ?a = _, Hb : size ?b = _ |- _ =>
               rewrite (cat0_size a b r _ _ _ _ Hc Ha Hb)
           end.
  all: try match goal with
           | Hs : size ?t = _ |- size ?t = _ => rewrite Hs
           end.
  all: match goal with
       | |- [?a; _] = [?a'; _] => replace a' with a by lia; reflexivity
       end.
Qed.

Lemma lm_forward_logits_rows_witness :
  ∃ out calls logits c,
    forward sample_ops sample_forward_model task_lm batch_lm = Ok (out, calls)
    ∧ out !! "logits" = Some logits
    ∧ size logits = [3; c].
Proof.
  destruct (forward sample_ops sample_forward_model task_lm batch_lm)
    as [[out calls] |] eqn:E; [| vm_compute in E; discriminate E].
  destruct (lm_forward_logits_rows sample_ops sample_forward_model task_lm
              batch_lm out calls eq_refl E)
    as (inp & w & b & s & lg & c & Hin & Hw & Hsz & Hl & Hlg).
  exists out, calls, lg, c. split; [reflexivity |]. split; [exact Hl |].
  vm_compute in Hin. injection Hin as <-.
  vm_compute in Hw. injection Hw as <-.
  vm_compute in Hsz. injection Hsz as <- <-.
  exact Hlg.
Defined.
